(** * EVMSimulator voting application: the tally and state-management core

    A shallow embedding of [VotingSystem] (source.py): the attributes of the
    object become a record, every handler becomes a function on that record,
    and the calls a handler makes to the outside world (message boxes, the
    audit log, the two JSON files) are appended to a trace kept in the record.
    Widget construction and re-rendering are not part of the embedding. *)

From Stdlib Require Import String Ascii List ZArith QArith Qabs Qpower Bool.
From Stdlib Require Import Lia.
From Stdlib Require Import Permutation Sorted DecimalString SpecFloat.
Import ListNotations.
Open Scope string_scope.
Open Scope Z_scope.

(** ** Python strings *)

Module PyStr.

(** [str.isspace] on one character.  A character of [string] is a code point
    below 256; these are the white-space code points of that range. *)
Definition isspace (c : ascii) : bool :=
  let n := nat_of_ascii c in
  ((9 <=? n) && (n <=? 13) || (28 <=? n) && (n <=? 32)
   || (n =? 133) || (n =? 160))%nat.

Fixpoint lstrip (s : string) : string :=
  match s with
  | String c s' => if isspace c then lstrip s' else s
  | EmptyString => EmptyString
  end.

(** Drops trailing white space: a character is kept when it is not white
    space or when something is kept after it. *)
Fixpoint rstrip (s : string) : string :=
  match s with
  | String c s' =>
      match rstrip s' with
      | EmptyString => if isspace c then EmptyString else String c EmptyString
      | r => String c r
      end
  | EmptyString => EmptyString
  end.

Definition strip (s : string) : string := rstrip (lstrip s).

(** Truth value of a string: the empty string is false. *)
Definition truthy (s : string) : bool :=
  match s with EmptyString => false | _ => true end.

(** [str(n)] for a natural number. *)
Definition of_nat (n : nat) : string := NilEmpty.string_of_uint (Nat.to_uint n).

(** [str(z)] for an integer. *)
Definition of_Z (z : Z) : string := NilEmpty.string_of_int (Z.to_int z).

End PyStr.

(** ** Python dictionaries with string keys

    A [dict] keeps its items in insertion order, and [display_results] sorts
    [votes.items()] stably, so the order is observable: a dictionary is the
    list of its items, oldest first. *)

Module PyDict.

Definition dict := list (string * Z).

Definition keys (d : dict) : list string := map fst d.
Definition values (d : dict) : list Z := map snd d.

(** [sum(d.values())] *)
Definition sum_values (d : dict) : Z := fold_right Z.add 0 (values d).

(** [d.get(k, dflt)] *)
Fixpoint get (k : string) (dflt : Z) (d : dict) : Z :=
  match d with
  | [] => dflt
  | (k', v) :: d' => if String.eqb k' k then v else get k dflt d'
  end.

Fixpoint mem (k : string) (d : dict) : bool :=
  match d with
  | [] => false
  | (k', _) :: d' => String.eqb k' k || mem k d'
  end.

(** [d[k] = v]: an existing key keeps its place, a new one goes last. *)
Fixpoint setitem (k : string) (v : Z) (d : dict) : dict :=
  match d with
  | [] => [(k, v)]
  | (k', v') :: d' =>
      if String.eqb k' k then (k', v) :: d' else (k', v') :: setitem k v d'
  end.

(** [d.setdefault(k, v)] *)
Definition setdefault (k : string) (v : Z) (d : dict) : dict :=
  if mem k d then d else (d ++ [(k, v)])%list.

End PyDict.

Import PyDict.

(** ** The state of the application *)

Inductive msgkind := showerror | showwarning | showinfo.

(** What [save_data] hands to [json.dump]. *)
Record ballot_data := mkBallotData {
  d_candidates : list string;
  d_votes : dict;
  d_total_votes : Z;
  d_voting_open : bool
}.

(** A call that leaves the process.  [LogEvent m] is [log_event(m)], which
    appends the time-stamped line to the log file; [SaveData] and
    [SavePassword] are the [json.dump] of [save_data] and [save_password].
    An event records that the call is made, with its argument, and not how
    the file system answers: when the write raises [IOError], [log_event]
    prints to the console, and [save_data] and [save_password] show a
    "File Error" box of their own and the file keeps what it held.  What is
    proved below of the trace is proved of the calls. *)
Inductive event :=
| MessageBox (kind : msgkind) (title message : string)
| LogEvent (message : string)
| SaveData (data : ballot_data)
| SavePassword (password_hash : option string).

Record VotingSystem := mkVotingSystem {
  voting_open : bool;
  votes : dict;
  candidates : list string;
  total_votes : Z;
  admin_password_hash : option string;
  selected_candidate : string;   (* the [StringVar] behind the radio buttons *)
  events : list event            (* oldest first *)
}.

Definition set_voting_open (b : bool) (s : VotingSystem) : VotingSystem :=
  mkVotingSystem b (votes s) (candidates s) (total_votes s)
    (admin_password_hash s) (selected_candidate s) (events s).

Definition set_votes (d : dict) (s : VotingSystem) : VotingSystem :=
  mkVotingSystem (voting_open s) d (candidates s) (total_votes s)
    (admin_password_hash s) (selected_candidate s) (events s).

Definition set_candidates (l : list string) (s : VotingSystem) : VotingSystem :=
  mkVotingSystem (voting_open s) (votes s) l (total_votes s)
    (admin_password_hash s) (selected_candidate s) (events s).

Definition set_total_votes (n : Z) (s : VotingSystem) : VotingSystem :=
  mkVotingSystem (voting_open s) (votes s) (candidates s) n
    (admin_password_hash s) (selected_candidate s) (events s).

Definition set_admin_password_hash (h : option string) (s : VotingSystem)
  : VotingSystem :=
  mkVotingSystem (voting_open s) (votes s) (candidates s) (total_votes s)
    h (selected_candidate s) (events s).

Definition set_selected_candidate (c : string) (s : VotingSystem)
  : VotingSystem :=
  mkVotingSystem (voting_open s) (votes s) (candidates s) (total_votes s)
    (admin_password_hash s) c (events s).

Definition emit (e : event) (s : VotingSystem) : VotingSystem :=
  mkVotingSystem (voting_open s) (votes s) (candidates s) (total_votes s)
    (admin_password_hash s) (selected_candidate s) (events s ++ [e])%list.

(** ** Start-up *)

(** [[f"Candidate {i+1}" for i in range(10)]] *)
Definition default_candidates : list string :=
  map (fun i => "Candidate " ++ PyStr.of_nat (S i)) (seq 0 10).

(** The attributes as [__init__] sets them, before [setup_password] and
    [load_data] run. *)
Definition init : VotingSystem :=
  mkVotingSystem false [] default_candidates 0 None "" [].

Definition messagebox (k : msgkind) (title message : string)
  : VotingSystem -> VotingSystem :=
  emit (MessageBox k title message).

Definition log_event (message : string) : VotingSystem -> VotingSystem :=
  emit (LogEvent message).

Definition save_data (s : VotingSystem) : VotingSystem :=
  emit (SaveData (mkBallotData (candidates s) (votes s) (total_votes s)
                    (voting_open s))) s.

Definition save_password (s : VotingSystem) : VotingSystem :=
  emit (SavePassword (admin_password_hash s)) s.

(** [reset_votes_logic]: clear the dictionary, give every candidate a zero
    entry in roster order, zero the total. *)
Definition reset_votes_logic (s : VotingSystem) : VotingSystem :=
  set_total_votes 0
    (fold_left (fun st c => set_votes (setitem c 0 (votes st)) st)
       (candidates s) (set_votes [] s)).

(** ** Voting *)

(** A click on the radio button of [c]. *)
Definition select_candidate (c : string) : VotingSystem -> VotingSystem :=
  set_selected_candidate c.

Definition cast_vote (s : VotingSystem) : VotingSystem :=
  if negb (voting_open s) then
    messagebox showerror "Voting Closed"
      "We're sorry, the voting period is currently closed." s
  else
    let selected := selected_candidate s in
    if negb (PyStr.truthy selected) then
      messagebox showwarning "No Selection"
        "Please select a candidate before casting your vote." s
    else
      let s1 := set_votes (setitem selected (get selected 0 (votes s) + 1)
                             (votes s)) s in
      let s2 := set_total_votes (total_votes s1 + 1) s1 in
      let s3 := save_data s2 in
      let s4 := set_selected_candidate "" s3 in
      messagebox showinfo "Vote Recorded"
        ("Thank you! Your vote for '" ++ selected
         ++ "' has been successfully recorded.") s4.

Definition open_voting (s : VotingSystem) : VotingSystem :=
  if negb (voting_open s) then
    let s1 := set_voting_open true s in
    let s2 := log_event "Voting Opened Manually" s1 in
    let s3 := save_data s2 in
    messagebox showinfo "Voting Opened" "The voting period is now OPEN." s3
  else s.

Definition close_voting (s : VotingSystem) : VotingSystem :=
  if voting_open s then
    let s1 := set_voting_open false s in
    let s2 := log_event "Voting Closed Manually" s1 in
    let s3 := save_data s2 in
    messagebox showinfo "Voting Closed" "The voting period is now CLOSED." s3
  else s.

Definition toggle_master_voting (s : VotingSystem) : VotingSystem :=
  let s1 := set_voting_open (negb (voting_open s)) s in
  let s2 := if voting_open s1
            then log_event "Voting Opened Manually (Override)" s1
            else log_event "Voting Closed Manually (Override)" s1 in
  save_data s2.

(** ** Loading the ballot file *)

(** The object [json.load] returns: each key may be missing. *)
Record ballot_json := mkBallotJson {
  j_candidates : option (list string);
  j_votes : option dict;
  j_total_votes : option Z;
  j_voting_open : option bool
}.

(** What [load_data] finds on disk.  [FileUnreadable e] stands for the
    [IOError] or [json.JSONDecodeError] whose text is [e], the two
    exceptions [load_data] catches; [FileJson] for a file holding a JSON
    object whose fields, where present, are a list of strings, an object of
    integers, an integer and a boolean.  Any other content (bytes that are
    not UTF-8, JSON that is not an object, a null or ill-typed field) makes
    [load_data] raise an exception it does not catch, which ends
    [__init__]; such files are outside this type. *)
Inductive data_file :=
| FileAbsent
| FileUnreadable (e : string)
| FileJson (data : ballot_json).

Definition dict_get_default {A : Type} (o : option A) (dflt : A) : A :=
  match o with Some a => a | None => dflt end.

Definition load_data (f : data_file) (s : VotingSystem) : VotingSystem :=
  match f with
  | FileAbsent => s
  | FileJson data =>
      let s1 := set_candidates
                  (dict_get_default (j_candidates data) (candidates s)) s in
      let s2 := set_votes (dict_get_default (j_votes data) []) s1 in
      let s3 := set_total_votes (dict_get_default (j_total_votes data) 0) s2 in
      let s4 := set_voting_open
                  (dict_get_default (j_voting_open data) false) s3 in
      fold_left (fun st c => set_votes (setdefault c 0 (votes st)) st)
        (candidates s4) s4
  | FileUnreadable e =>
      reset_votes_logic
        (messagebox showwarning "Data Load Error"
           ("Could not load data: " ++ e ++ ". Starting with fresh data.") s)
  end.

(** ** Editing the roster *)

(** The names [save_candidates] keeps from the entry fields: stripped, and
    dropped when nothing is left. *)
Definition new_candidates (entries : list string) : list string :=
  filter PyStr.truthy (map PyStr.strip entries).

(** [len(set(l))] *)
Definition len_set (l : list string) : nat :=
  length (nodup string_dec l).

Definition save_candidates (entries : list string) (s : VotingSystem)
  : VotingSystem :=
  let new := new_candidates entries in
  if (32 <? length new)%nat then
    messagebox showerror "Limit Exceeded"
      ("You can have a maximum of 32 candidates. You have entered "
       ++ PyStr.of_nat (length new) ++ ".") s
  else if negb (length new =? len_set new)%nat then
    messagebox showerror "Duplicate Names"
      "Candidate names must be unique." s
  else
    let s1 := set_candidates new s in
    let s2 := reset_votes_logic s1 in
    let s3 := save_data s2 in
    messagebox showinfo "Success"
      "Candidate list updated. All votes have been reset." s3.

(** ** The results table *)

(** Where [x] goes in a list already in descending order of count: after the
    items with a larger count, before those with an equal or smaller one. *)
Fixpoint insert_desc (x : string * Z) (l : dict) : dict :=
  match l with
  | [] => [x]
  | y :: l' => if snd x <? snd y then y :: insert_desc x l' else x :: l
  end.

(** [sorted(items, key=lambda item: item[1], reverse=True)]: the built-in
    sort is stable, also with [reverse=True]. *)
Definition sorted_by_count_desc (items : dict) : dict :=
  fold_right insert_desc [] items.

(** *** Floating point

    [vote_count / self.total_votes * 100] is evaluated in binary64: the
    quotient of the two integers correctly rounded, then the product with
    [100.0] correctly rounded.  The Standard Library's reference
    implementation of IEEE 754 (mantissa of 53 bits, [emax = 1024]) stands
    for the machine's arithmetic. *)

(** An integer as an exact operand. *)
Definition float_of_int (z : Z) : spec_float :=
  match z with
  | Z0 => S754_zero false
  | Zpos p => S754_finite false p 0
  | Zneg p => S754_finite true p 0
  end.

(** [a / b] on integers.  Where the quotient is beyond the range of a float
    Python raises [OverflowError] and the handler is abandoned; the value
    here is then an infinity, and what is proved of percentages assumes
    that it is not one. *)
Definition true_divide (a b : Z) : spec_float :=
  SFdiv 53 1024 (float_of_int a) (float_of_int b).

Definition float_mul : spec_float -> spec_float -> spec_float :=
  SFmul 53 1024.

(** The absolute value of a finite float, exactly. *)
Definition magnitude (x : spec_float) : Q :=
  match x with
  | S754_finite _ m e => (inject_Z (Zpos m) * 2 ^ e)%Q
  | _ => 0%Q
  end.

(** The number of tenths nearest to [x], halves going to the even one. *)
Definition round_tenths (x : Q) : Z :=
  let n := 10 * Qnum x in
  let d := Zpos (Qden x) in
  let q := n / d in
  let r := n mod d in
  if 2 * r <? d then q
  else if d <? 2 * r then q + 1
  else if Z.even q then q else q + 1.

(** [t] tenths, [t] not negative, in decimal with one digit after the
    point. *)
Definition tenths_text (t : Z) : string :=
  PyStr.of_Z (t / 10) ++ "." ++ PyStr.of_Z (t mod 10).

Definition sign_text (negative : bool) : string :=
  if negative then "-" else "".

(** [f"{x:.1f}"]: the decimal with one digit after the point nearest to the
    exact value of the float, halves to even; the sign is the sign bit, so
    that a negative value rounding to zero prints "-0.0". *)
Definition format_1f (x : spec_float) : string :=
  match x with
  | S754_nan => "nan"
  | S754_infinity sg => sign_text sg ++ "inf"
  | S754_zero sg => sign_text sg ++ "0.0"
  | S754_finite sg _ _ =>
      sign_text sg ++ tenths_text (round_tenths (magnitude x))
  end.

Record result_row := mkRow {
  r_rank : string;
  r_candidate : string;
  r_votes : Z;
  r_percentage : spec_float;
  r_percent_text : string
}.

(** [(vote_count / self.total_votes * 100) if self.total_votes > 0 else 0];
    the integer [0] of the second branch prints as the float zero does. *)
Definition percentage_of (total vote_count : Z) : spec_float :=
  if 0 <? total
  then float_mul (true_divide vote_count total) (float_of_int 100)
  else S754_zero false.

Definition result_of (total : Z) (i : nat) (item : string * Z) : result_row :=
  let percentage := percentage_of total (snd item) in
  mkRow (PyStr.of_nat (S i) ++ ".") (fst item) (snd item) percentage
    (format_1f percentage ++ "%").

Fixpoint enumerate_from {A : Type} (i : nat) (l : list A) : list (nat * A) :=
  match l with
  | [] => []
  | a :: l' => (i, a) :: enumerate_from (S i) l'
  end.

(** The rows [display_results] draws, top to bottom. *)
Definition display_results (s : VotingSystem) : list result_row :=
  map (fun ia => result_of (total_votes s) (fst ia) (snd ia))
    (enumerate_from 0 (sorted_by_count_desc (votes s))).

(** ** The administrator credential *)

Section Credential.

(** [hashlib.sha256(password.encode()).hexdigest()] *)
Variable sha256_hexdigest : string -> string.

Definition hash_password (password : string) : string :=
  sha256_hexdigest password.

Definition verify_password (password : string) (s : VotingSystem) : bool :=
  match admin_password_hash s with
  | Some h => String.eqb (hash_password password) h
  | None => false
  end.

(** [do_change] with the contents of the three entry fields. *)
Definition do_change (current_pass new_pass confirm_pass : string)
    (s : VotingSystem) : VotingSystem :=
  if negb (verify_password current_pass s) then
    messagebox showerror "Error" "Current password is not correct." s
  else if negb (PyStr.truthy new_pass)
          || negb (String.eqb new_pass confirm_pass) then
    messagebox showerror "Error" "New passwords do not match or are empty." s
  else
    let s1 := set_admin_password_hash (Some (hash_password new_pass)) s in
    let s2 := save_password s1 in
    messagebox showinfo "Success" "Password changed successfully." s2.

(** [reset_votes]: [password] is the answer to the password dialog ([None]
    when it is cancelled), [confirmed] the answer to the yes/no question,
    which is asked only after the password has been accepted. *)
Definition reset_votes (password : option string) (confirmed : bool)
    (s : VotingSystem) : VotingSystem :=
  let ok := match password with
            | Some p => PyStr.truthy p && verify_password p s
            | None => false
            end in
  if negb ok then
    messagebox showerror "Authentication Failed"
      "Incorrect password. Reset operation cancelled." s
  else if confirmed then
    let s1 := reset_votes_logic s in
    let s2 := save_data s1 in
    messagebox showinfo "Reset Complete"
      "All voting data has been successfully cleared." s2
  else s.

End Credential.

(** ** The operations as the specification names them *)

(** [castVote(candidate)]: the radio button, then the CAST VOTE button. *)
Definition castVote (c : string) (s : VotingSystem) : VotingSystem :=
  cast_vote (select_candidate c s).

(** One [castVote] per name, in order. *)
Definition cast_all (cs : list string) (s : VotingSystem) : VotingSystem :=
  fold_left (fun st c => castVote c st) cs s.

(** The votes the application has acknowledged: its "Vote Recorded" boxes. *)
Definition is_vote_recorded (e : event) : bool :=
  match e with
  | MessageBox showinfo title _ => String.eqb title "Vote Recorded"
  | _ => false
  end.

Definition recorded (s : VotingSystem) : Z :=
  Z.of_nat (length (filter is_vote_recorded (events s))).

Inductive command :=
| CastVote (candidate : string)
| OpenVoting
| CloseVoting
| ToggleVoting
| ResetVotes (password : option string) (confirmed : bool)
| SetCandidates (entries : list string).

Definition run (sha256_hexdigest : string -> string) (cmd : command)
  : VotingSystem -> VotingSystem :=
  match cmd with
  | CastVote c => castVote c
  | OpenVoting => open_voting
  | CloseVoting => close_voting
  | ToggleVoting => toggle_master_voting
  | ResetVotes password confirmed =>
      reset_votes sha256_hexdigest password confirmed
  | SetCandidates entries => save_candidates entries
  end.

(** The voter window offers the roster and nothing else; the empty string
    is the state of the radio group with no button chosen. *)
Definition offered (cmd : command) (s : VotingSystem) : Prop :=
  match cmd with
  | CastVote c => c = "" \/ In c (candidates s)
  | _ => True
  end.

(** ** The invariants of the ballot *)

(** [total_votes == sum(votes.values())] *)
Definition totals_consistent (s : VotingSystem) : Prop :=
  total_votes s = sum_values (votes s).

(** [set(votes.keys()) == set(candidates)] *)
Definition roster_consistent (s : VotingSystem) : Prop :=
  forall c, In c (keys (votes s)) <-> In c (candidates s).

(** The dictionary lists the candidates in roster order. *)
Definition roster_ordered (s : VotingSystem) : Prop :=
  keys (votes s) = candidates s.

(** The dictionary [reset_votes_logic] builds from the roster [l]. *)
Definition zeroed (l : list string) : dict :=
  fold_left (fun d c => setitem c 0 d) l [].

(** An entry field whose text is a name as it stands. *)
Definition clean_entry (e : string) : Prop :=
  PyStr.strip e = e /\ e <> "".

Definition item_of (r : result_row) : string * Z := (r_candidate r, r_votes r).

Definition has_count (k : Z) (item : string * Z) : bool := snd item =? k.

(** Descending order of count. *)
Definition count_ge (a b : string * Z) : Prop := snd b <= snd a.

(** ** Concrete states and inputs *)

(** 23 votes for "A" and 57 for "B" out of 80, voting open. *)
Definition eighty_votes : VotingSystem :=
  mkVotingSystem true [("A", 23); ("B", 57); ("C", 0)] ["A"; "B"; "C"] 80
    None "" [].

Definition abc : VotingSystem :=
  mkVotingSystem false [("A", 0); ("B", 0); ("C", 0)] ["A"; "B"; "C"] 0
    None "" [].

(** A stand-in for the digest where a concrete one is needed. *)
Definition toy_digest (p : string) : string := "#" ++ p.

Definition abc_admin : VotingSystem :=
  set_admin_password_hash (Some (toy_digest "secret")) abc.

(** A first run on which the ballot file cannot be read, so that the
    tallies are reset; voting is then opened from the admin panel. *)
Definition fresh_open : VotingSystem :=
  toggle_master_voting (load_data (FileUnreadable "Expecting value") init).

(** The voter picks "Candidate 1" and does not vote yet; the administrator
    replaces the roster; the voter presses CAST VOTE. *)
Definition stale_vote : VotingSystem :=
  cast_vote
    (save_candidates ["A"; "B"] (select_candidate "Candidate 1" fresh_open)).

(** ** Start-up of the credential, and the two log-in dialogs *)

(** What [setup_password] finds on disk.  [PasswordUnreadable] is a file on
    which [open] or [json.load] raises [IOError] or [json.JSONDecodeError],
    the two exceptions [setup_password] catches; [PasswordJson h] a file
    holding a JSON object that gives the string [h] for the key
    [password_hash] ([None] when the key is missing or null);
    [PasswordMalformed] a file on which an exception is raised that is not
    caught: bytes that are not UTF-8, or JSON that is not an object, so
    that [data.get] fails. *)
Inductive password_file :=
| PasswordAbsent
| PasswordUnreadable
| PasswordJson (password_hash : option string)
| PasswordMalformed.

(** How [__init__] ends: the application runs; or
    [create_initial_password] ends the process with [exit()] because no
    password was given; or an exception nobody catches ends it. *)
Inductive startup :=
| Running (s : VotingSystem)
| Exited (s : VotingSystem)
| Crashed (s : VotingSystem).

Section Access.

Variable sha256_hexdigest : string -> string.

(** [reply] is the answer to the password prompt, [None] when cancelled. *)
Definition create_initial_password (reply : option string)
    (s : VotingSystem) : startup :=
  match reply with
  | Some (String a p) =>
      let password := String a p in
      let s1 := set_admin_password_hash
                  (Some (hash_password sha256_hexdigest password)) s in
      let s2 := save_password s1 in
      Running
        (messagebox showinfo "Setup Complete"
           "Administrator password has been set successfully." s2)
  | _ =>
      Exited
        (messagebox showerror "Setup Required"
           "An administrator password is required. The application will now exit."
           s)
  end.

Definition setup_password (f : password_file) (reply : option string)
    (s : VotingSystem) : startup :=
  match f with
  | PasswordJson h =>
      let s1 := set_admin_password_hash h s in
      match h with
      | Some (String _ _) => Running s1
      | _ => create_initial_password reply s1
      end
  | PasswordUnreadable => create_initial_password reply s
  | PasswordAbsent => create_initial_password reply s
  | PasswordMalformed => Crashed s
  end.

(** [__init__] up to the construction of the windows. *)
Definition start (pf : password_file) (reply : option string)
    (df : data_file) : startup :=
  match setup_password pf reply init with
  | Running s => Running (load_data df s)
  | Exited s => Exited s
  | Crashed s => Crashed s
  end.

(** [admin_login]: the boolean tells whether [open_admin_panel] is
    called. *)
Definition admin_login (reply : option string) (s : VotingSystem)
  : bool * VotingSystem :=
  match reply with
  | Some password =>
      if PyStr.truthy password
         && verify_password sha256_hexdigest password s
      then (true, s)
      else (false,
            messagebox showerror "Login Failed"
              "The password you entered is incorrect." s)
  | None => (false, s)
  end.

(** [authenticate_secure_admin]: the boolean tells whether
    [setup_secure_functions] is called. *)
Definition authenticate_secure_admin (reply : option string)
    (s : VotingSystem) : bool * VotingSystem :=
  match reply with
  | Some password =>
      if PyStr.truthy password
         && verify_password sha256_hexdigest password s
      then (true,
            messagebox showinfo "Access Granted"
              "Secure functions are now available." s)
      else (false,
            messagebox showerror "Authentication Failed"
              "Incorrect password." s)
  | None => (false, s)
  end.

End Access.

(** ** The candidate management dialog *)

(** [add_field]: one more empty entry, up to 32. *)
Definition add_field (entries : list string) : list string :=
  if (length entries <? 32)%nat then (entries ++ [""])%list else entries.

(** The text of entry [i] replaced by typing. *)
Fixpoint type_in (i : nat) (text : string) (entries : list string)
  : list string :=
  match entries, i with
  | [], _ => []
  | _ :: l, O => text :: l
  | e :: l, S i' => e :: type_in i' text l
  end.

Inductive field_action :=
| AddField
| TypeIn (i : nat) (text : string).

Definition field_step (entries : list string) (a : field_action)
  : list string :=
  match a with
  | AddField => add_field entries
  | TypeIn i text => type_in i text entries
  end.

(** The entries of [manage_candidates] when "Save Changes" is pressed: one
    per candidate to begin with, then what the administrator did. *)
Definition manage_entries (actions : list field_action) (s : VotingSystem)
  : list string :=
  fold_left field_step actions (candidates s).

Definition manage_candidates (actions : list field_action)
    (s : VotingSystem) : VotingSystem :=
  save_candidates (manage_entries actions s) s.

(** [on_main_window_close], up to the destruction of the window. *)
Definition on_main_window_close : VotingSystem -> VotingSystem := save_data.

(** ** What the trace leaves on disk *)

Definition ballot_of (s : VotingSystem) : ballot_data :=
  mkBallotData (candidates s) (votes s) (total_votes s) (voting_open s).

(** The object handed to [json.dump] by the latest call of [save_data], if
    any. *)
Definition last_saved (evs : list event) : option ballot_data :=
  fold_left (fun acc e => match e with SaveData d => Some d | _ => acc end)
    evs None.

(** [json.load] gives back what [json.dump] was given: a list of strings, a
    dictionary from strings to integers in the same order, an integer and a
    boolean. *)
Definition json_of (d : ballot_data) : ballot_json :=
  mkBallotJson (Some (d_candidates d)) (Some (d_votes d))
    (Some (d_total_votes d)) (Some (d_voting_open d)).

(** The ballot file after the trace, when none existed before it and the
    writes went through. *)
Definition data_file_of (evs : list event) : data_file :=
  match last_saved evs with
  | Some d => FileJson (json_of d)
  | None => FileAbsent
  end.

(** The hash handed to the latest call of [save_password], if any. *)
Definition last_saved_password (evs : list event) : option (option string) :=
  fold_left (fun acc e => match e with SavePassword h => Some h | _ => acc end)
    evs None.

(** The password file after the trace, when none existed before it and the
    writes went through. *)
Definition password_file_of (evs : list event) : password_file :=
  match last_saved_password evs with
  | Some h => PasswordJson h
  | None => PasswordAbsent
  end.

(** The lines asked of the audit log, without their time stamps. *)
Definition log_lines (evs : list event) : list string :=
  flat_map (fun e => match e with LogEvent m => [m] | _ => [] end) evs.

(** ** Further invariants *)

(** The latest call of [save_data] was made with the ballot that is in
    memory. *)
Definition persisted (s : VotingSystem) : Prop :=
  last_saved (events s) = Some (ballot_of s).

Definition counts_nonneg (s : VotingSystem) : Prop :=
  Forall (fun v => 0 <= v) (values (votes s)) /\ 0 <= total_votes s.

(** A roster as "Save Changes" lets it through. *)
Definition roster_valid (s : VotingSystem) : Prop :=
  (length (candidates s) <= 32)%nat
  /\ NoDup (candidates s)
  /\ Forall clean_entry (candidates s).

(** * Properties *)

(** ** Worked examples *)

Example default_candidates_eq :
  default_candidates =
  ["Candidate 1"; "Candidate 2"; "Candidate 3"; "Candidate 4"; "Candidate 5";
   "Candidate 6"; "Candidate 7"; "Candidate 8"; "Candidate 9"; "Candidate 10"].
Proof. reflexivity. Qed.

Example strip_example : PyStr.strip "  Ann Lee " = "Ann Lee".
Proof. reflexivity. Qed.

Example scenario_results :
  map (fun r => (r_candidate r, r_votes r, r_percent_text r))
    (display_results
       (castVote "B" (castVote "A" (castVote "A" (open_voting abc)))))
  = [("A", 2, "66.7%"); ("B", 1, "33.3%"); ("C", 0, "0.0%")].
Proof. vm_compute. reflexivity. Qed.

(** ** Dictionaries *)

Lemma get_setitem_same (k : string) (v dflt : Z) (d : dict) :
  get k dflt (setitem k v d) = v.
Proof.
  induction d as [|[k' v'] d IH]; simpl.
  - now rewrite String.eqb_refl.
  - destruct (String.eqb k' k) eqn:E; simpl; rewrite E; auto.
Qed.

Lemma sum_values_setitem (k : string) (v : Z) (d : dict) :
  sum_values (setitem k v d) = sum_values d + v - get k 0 d.
Proof.
  unfold sum_values, values.
  induction d as [|[k' v'] d IH]; simpl.
  - lia.
  - destruct (String.eqb k' k); simpl; lia.
Qed.

Lemma keys_setitem (k : string) (v : Z) (d : dict) (c : string) :
  In c (keys (setitem k v d)) <-> c = k \/ In c (keys d).
Proof.
  unfold keys.
  induction d as [|[k' v'] d IH]; simpl.
  - intuition.
  - destruct (String.eqb_spec k' k); simpl.
    + subst. intuition.
    + rewrite IH. intuition.
Qed.

Lemma mem_keys (k : string) (d : dict) : mem k d = true <-> In k (keys d).
Proof.
  unfold keys.
  induction d as [|[k' v'] d IH]; simpl.
  - intuition discriminate.
  - rewrite orb_true_iff, IH, String.eqb_eq. reflexivity.
Qed.

Lemma setitem_fresh (k : string) (v : Z) (d : dict) :
  ~ In k (keys d) -> setitem k v d = (d ++ [(k, v)])%list.
Proof.
  unfold keys.
  induction d as [|[k' v'] d IH]; simpl; intros H.
  - reflexivity.
  - destruct (String.eqb_spec k' k).
    + exfalso. auto.
    + rewrite IH by tauto. reflexivity.
Qed.

Lemma keys_setdefault (k : string) (v : Z) (d : dict) (c : string) :
  In c (keys (setdefault k v d)) <-> c = k \/ In c (keys d).
Proof.
  unfold setdefault.
  destruct (mem k d) eqn:E.
  - apply mem_keys in E. intuition (subst; auto).
  - unfold keys. rewrite map_app, in_app_iff. simpl. intuition.
Qed.

(** ** The record *)

Lemma VotingSystem_eta (s : VotingSystem) :
  mkVotingSystem (voting_open s) (votes s) (candidates s) (total_votes s)
    (admin_password_hash s) (selected_candidate s) (events s) = s.
Proof. now destruct s. Qed.

(** A loop that only rewrites [votes] is a loop over the dictionary. *)
Lemma fold_votes (f : string -> dict -> dict) (l : list string)
    (s : VotingSystem) :
  fold_left (fun st c => set_votes (f c (votes st)) st) l s
  = set_votes (fold_left (fun d c => f c d) l (votes s)) s.
Proof.
  revert s.
  induction l as [|c l IH]; intros s; simpl.
  - unfold set_votes. now rewrite VotingSystem_eta.
  - rewrite IH. reflexivity.
Qed.

Lemma reset_votes_logic_eq (s : VotingSystem) :
  reset_votes_logic s
  = set_total_votes 0 (set_votes (zeroed (candidates s)) s).
Proof.
  unfold reset_votes_logic.
  rewrite (fold_votes (fun c d => setitem c 0 d)). reflexivity.
Qed.

Lemma keys_fold_setitem (l : list string) (d : dict) (c : string) :
  In c (keys (fold_left (fun d c => setitem c 0 d) l d))
  <-> In c (keys d) \/ In c l.
Proof.
  revert d.
  induction l as [|a l IH]; intros d; simpl.
  - intuition.
  - rewrite IH, keys_setitem. intuition.
Qed.

Lemma values_fold_setitem (l : list string) (d : dict) :
  Forall (fun v => v = 0) (values d) ->
  Forall (fun v => v = 0) (values (fold_left (fun d c => setitem c 0 d) l d)).
Proof.
  revert d.
  induction l as [|a l IH]; intros d H; simpl; auto.
  apply IH. clear IH. unfold values in *.
  induction d as [|[k v] d IHd]; simpl.
  - auto.
  - inversion H; subst.
    destruct (String.eqb k a); simpl; constructor; auto.
Qed.

Lemma sum_values_zero (d : dict) :
  Forall (fun v => v = 0) (values d) -> sum_values d = 0.
Proof.
  unfold sum_values.
  induction 1 as [|v l Hv _ IH]; simpl; lia.
Qed.

Lemma fold_setitem_nodup (l : list string) (d : dict) :
  NoDup (keys d ++ l) ->
  fold_left (fun d c => setitem c 0 d) l d
  = (d ++ map (fun c => (c, 0)) l)%list.
Proof.
  revert d.
  induction l as [|a l IH]; intros d H; simpl.
  - now rewrite app_nil_r.
  - rewrite setitem_fresh.
    + rewrite IH.
      * now rewrite <- app_assoc.
      * unfold keys in *. rewrite map_app. simpl. rewrite <- app_assoc.
        exact H.
    + apply NoDup_remove_2 in H. rewrite in_app_iff in H. tauto.
Qed.

Lemma zeroed_nodup (l : list string) :
  NoDup l -> zeroed l = map (fun c => (c, 0)) l.
Proof.
  intros H. unfold zeroed. now rewrite fold_setitem_nodup.
Qed.

(** ** Casting a vote *)

Lemma truthy_false (c : string) : PyStr.truthy c = false <-> c = "".
Proof. destruct c; simpl; intuition discriminate. Qed.

Lemma cast_vote_closed (s : VotingSystem) :
  voting_open s = false ->
  cast_vote s
  = messagebox showerror "Voting Closed"
      "We're sorry, the voting period is currently closed." s.
Proof. intros H. unfold cast_vote. now rewrite H. Qed.

Lemma cast_vote_counted (s : VotingSystem) :
  voting_open s = true -> selected_candidate s <> "" ->
  votes (cast_vote s)
  = setitem (selected_candidate s)
      (get (selected_candidate s) 0 (votes s) + 1) (votes s)
  /\ total_votes (cast_vote s) = total_votes s + 1
  /\ candidates (cast_vote s) = candidates s
  /\ recorded (cast_vote s) = recorded s + 1.
Proof.
  intros Ho Hs. unfold cast_vote. rewrite Ho. simpl.
  destruct (PyStr.truthy (selected_candidate s)) eqn:E.
  - simpl. repeat split.
    unfold recorded. simpl.
    rewrite !filter_app, !length_app. simpl. lia.
  - apply truthy_false in E. contradiction.
Qed.

Lemma cast_vote_rejected (s : VotingSystem) :
  voting_open s = false \/ selected_candidate s = "" ->
  votes (cast_vote s) = votes s
  /\ total_votes (cast_vote s) = total_votes s
  /\ candidates (cast_vote s) = candidates s
  /\ recorded (cast_vote s) = recorded s.
Proof.
  intros H. unfold cast_vote.
  destruct (voting_open s); simpl.
  - destruct H as [H|H]; [discriminate|]. rewrite H. simpl.
    repeat split. unfold recorded. simpl.
    rewrite filter_app, length_app. simpl. lia.
  - repeat split. unfold recorded. simpl.
    rewrite filter_app, length_app. simpl. lia.
Qed.

(** C3: while voting is closed, [castVote] answers every candidate with the
    "Voting Closed" error box and does nothing else: the dictionary of
    counters and the total are the ones it found. *)
Theorem castVote_closed_rejected (s : VotingSystem) (c : string) :
  voting_open s = false ->
  castVote c s
  = messagebox showerror "Voting Closed"
      "We're sorry, the voting period is currently closed."
      (select_candidate c s)
  /\ votes (castVote c s) = votes s
  /\ total_votes (castVote c s) = total_votes s
  /\ (forall k, get k 0 (votes (castVote c s)) = get k 0 (votes s))
  /\ events (castVote c s)
     = (events s
        ++ [MessageBox showerror "Voting Closed"
              "We're sorry, the voting period is currently closed."])%list.
Proof.
  intros H. unfold castVote.
  rewrite cast_vote_closed by exact H.
  repeat split.
Qed.

Lemma castVote_closed_rejected_witness :
  voting_open abc = false
  /\ votes (castVote "A" abc) = [("A", 0); ("B", 0); ("C", 0)]
  /\ total_votes (castVote "A" abc) = 0.
Proof.
  split; [reflexivity|].
  destruct (castVote_closed_rejected abc "A" eq_refl) as (_ & Hv & Ht & _).
  split; [exact Hv | exact Ht].
Defined.

(** C2, as the code has it: the only selection [castVote] turns down while
    voting is open is the empty one, with the "No Selection" warning and no
    change to the counters.  A name is not compared with the roster: every
    non-empty name is counted, and one without an entry is given a new entry
    holding 1. *)
Theorem castVote_unlisted_name (s : VotingSystem) (c : string) :
  voting_open s = true ->
  (c = "" ->
   castVote c s
   = messagebox showwarning "No Selection"
       "Please select a candidate before casting your vote."
       (select_candidate c s)
   /\ votes (castVote c s) = votes s
   /\ total_votes (castVote c s) = total_votes s)
  /\ (c <> "" ->
      votes (castVote c s) = setitem c (get c 0 (votes s) + 1) (votes s)
      /\ total_votes (castVote c s) = total_votes s + 1
      /\ recorded (castVote c s) = recorded s + 1
      /\ (~ In c (keys (votes s)) ->
          votes (castVote c s) = (votes s ++ [(c, 1)])%list)).
Proof.
  intros Ho. split.
  - intros ->. unfold castVote, cast_vote. simpl. rewrite Ho. simpl.
    repeat split.
  - intros Hc.
    destruct (cast_vote_counted (select_candidate c s) Ho Hc)
      as (Hv & Ht & _ & Hr).
    unfold castVote. simpl in *.
    repeat split; auto.
    intros Hn. rewrite Hv.
    replace (get c 0 (votes s)) with 0.
    + now apply setitem_fresh.
    + clear -Hn. unfold keys in Hn.
      induction (votes s) as [|[k v] d IH]; simpl in *; auto.
      destruct (String.eqb_spec k c); [exfalso; auto | apply IH; tauto].
Qed.

Lemma castVote_unlisted_name_witness :
  voting_open (open_voting abc) = true
  /\ votes (castVote "Z" (open_voting abc))
     = [("A", 0); ("B", 0); ("C", 0); ("Z", 1)]
  /\ total_votes (castVote "Z" (open_voting abc)) = 1.
Proof.
  split; [reflexivity|].
  destruct (castVote_unlisted_name (open_voting abc) "Z" eq_refl)
    as (_ & H).
  destruct H as (_ & Ht & _ & Hv); [discriminate|].
  split; [apply Hv | exact Ht].
  simpl. intros [H|[H|[H|[]]]]; discriminate.
Defined.

(** C2 as written fails: "Z" is not on the roster of [abc], voting is open,
    and the vote is recorded. *)
Lemma unlisted_vote_is_counted :
  voting_open (open_voting abc) = true
  /\ ~ In "Z" (candidates (open_voting abc))
  /\ votes (castVote "Z" (open_voting abc)) <> votes (open_voting abc)
  /\ total_votes (castVote "Z" (open_voting abc))
     <> total_votes (open_voting abc)
  /\ last (events (castVote "Z" (open_voting abc))) (LogEvent "")
     = MessageBox showinfo "Vote Recorded"
         "Thank you! Your vote for 'Z' has been successfully recorded.".
Proof.
  split; [reflexivity|]. split.
  - simpl. intros [H|[H|[H|[]]]]; discriminate.
  - split; [simpl; discriminate|]. split; [simpl; discriminate|].
    reflexivity.
Qed.

(** ** Opening and closing *)

(** C8: [open_voting] and [close_voting] do nothing at all when the state is
    already the one they aim for: the whole record, trace of log lines,
    file writes and message boxes included, is returned as it was.  On a
    transition they flip [voting_open], log one line, save and report, and
    touch nothing else.  Calling either twice is the same as calling it
    once. *)
Theorem open_close_voting_idempotent (s : VotingSystem) :
  (voting_open s = true -> open_voting s = s)
  /\ (voting_open s = false -> close_voting s = s)
  /\ (voting_open s = false ->
      voting_open (open_voting s) = true
      /\ events (open_voting s)
         = (events s
            ++ [LogEvent "Voting Opened Manually";
                SaveData (mkBallotData (candidates s) (votes s)
                            (total_votes s) true);
                MessageBox showinfo "Voting Opened"
                  "The voting period is now OPEN."])%list)
  /\ (voting_open s = true ->
      voting_open (close_voting s) = false
      /\ events (close_voting s)
         = (events s
            ++ [LogEvent "Voting Closed Manually";
                SaveData (mkBallotData (candidates s) (votes s)
                            (total_votes s) false);
                MessageBox showinfo "Voting Closed"
                  "The voting period is now CLOSED."])%list)
  /\ (votes (open_voting s) = votes s
      /\ candidates (open_voting s) = candidates s
      /\ total_votes (open_voting s) = total_votes s
      /\ votes (close_voting s) = votes s
      /\ candidates (close_voting s) = candidates s
      /\ total_votes (close_voting s) = total_votes s)
  /\ open_voting (open_voting s) = open_voting s
  /\ close_voting (close_voting s) = close_voting s.
Proof.
  unfold open_voting, close_voting.
  destruct (voting_open s) eqn:E; simpl; rewrite ?E; simpl;
    repeat match goal with
           | |- _ /\ _ => split
           | |- _ -> _ => intros ?
           end;
    try discriminate; try reflexivity;
    rewrite <- !app_assoc; reflexivity.
Qed.

Lemma open_close_voting_idempotent_witness :
  voting_open abc = false
  /\ close_voting abc = abc
  /\ voting_open (open_voting abc) = true
  /\ open_voting (open_voting abc) = open_voting abc.
Proof.
  destruct (open_close_voting_idempotent abc)
    as (_ & Hc & Ho & _ & _ & Hoo & _).
  split; [reflexivity|].
  split; [exact (Hc eq_refl)|].
  split; [exact (proj1 (Ho eq_refl)) | exact Hoo].
Defined.

(** ** The credential *)

Section CredentialProperties.

Variable sha256_hexdigest : string -> string.

Lemma verify_password_iff (p : string) (s : VotingSystem) :
  verify_password sha256_hexdigest p s = true
  <-> admin_password_hash s = Some (sha256_hexdigest p).
Proof.
  unfold verify_password, hash_password.
  destruct (admin_password_hash s) as [h|].
  - rewrite String.eqb_eq. split; [intros ->; reflexivity | congruence].
  - split; discriminate.
Qed.


(** C10: when the new password and its confirmation differ, the change is
    refused and the stored hash stays, whatever the current password; when
    the current password verifies, the refusal is the "New passwords do not
    match or are empty." box and nothing else happens, also for a non-empty
    new password. *)
Theorem change_requires_confirmation
    (current new confirm : string) (s : VotingSystem) :
  new <> confirm ->
  admin_password_hash (do_change sha256_hexdigest current new confirm s)
  = admin_password_hash s
  /\ (verify_password sha256_hexdigest current s = true ->
      do_change sha256_hexdigest current new confirm s
      = messagebox showerror "Error"
          "New passwords do not match or are empty." s).
Proof.
  intros H. unfold do_change.
  destruct (verify_password sha256_hexdigest current s); simpl.
  - destruct (String.eqb_spec new confirm) as [->|_]; [contradiction|].
    rewrite orb_true_r. split; reflexivity.
  - split; [reflexivity | discriminate].
Qed.

(** What a change that goes through does. *)
Lemma change_accepted (current new : string) (s : VotingSystem) :
  verify_password sha256_hexdigest current s = true -> new <> "" ->
  admin_password_hash (do_change sha256_hexdigest current new new s)
  = Some (sha256_hexdigest new)
  /\ verify_password sha256_hexdigest new
       (do_change sha256_hexdigest current new new s) = true.
Proof.
  intros Hv Hn. unfold do_change. rewrite Hv. simpl.
  rewrite String.eqb_refl.
  destruct (PyStr.truthy new) eqn:E.
  - simpl. split; [reflexivity|].
    unfold verify_password. simpl. apply String.eqb_refl.
  - apply truthy_false in E. contradiction.
Qed.

End CredentialProperties.


Lemma change_requires_confirmation_witness :
  "new" <> "nwe"
  /\ verify_password toy_digest "secret" abc_admin = true
  /\ admin_password_hash (do_change toy_digest "secret" "new" "nwe" abc_admin)
     = Some "#secret".
Proof.
  split; [discriminate|]. split; [reflexivity|].
  refine (proj1 (change_requires_confirmation toy_digest
                   "secret" "new" "nwe" abc_admin _)).
  discriminate.
Defined.

(** ** Loading *)

Lemma load_data_unreadable_default (e : string) :
  let s := load_data (FileUnreadable e) init in
  candidates s = default_candidates
  /\ votes s = map (fun c => (c, 0)) default_candidates
  /\ total_votes s = 0
  /\ voting_open s = false.
Proof. repeat split. Qed.

Lemma load_data_json_backfills (data : ballot_json) (s : VotingSystem)
    (c : string) :
  In c (candidates (load_data (FileJson data) s)) ->
  In c (keys (votes (load_data (FileJson data) s))).
Proof.
  simpl. rewrite (fold_votes (fun c d => setdefault c 0 d)). simpl.
  generalize (dict_get_default (j_candidates data) (candidates s)).
  generalize (dict_get_default (j_votes data) []).
  intros d l. revert d.
  induction l as [|a l IH]; intros d; simpl; [tauto|].
  assert (Hmono : forall l d k, In k (keys d) ->
            In k (keys (fold_left (fun d c => setdefault c 0 d) l d))).
  { clear. induction l as [|a l IH]; intros d k H; simpl; auto.
    apply IH. apply keys_setdefault. auto. }
  intros [->|H].
  - apply Hmono. apply keys_setdefault. auto.
  - now apply IH.
Qed.

(** C6, the path that misses the backfill: with no ballot file [load_data]
    returns at once and the object keeps the attributes [__init__] gave it,
    the ten default candidates, total 0, voting closed, and an empty
    [votes] dictionary.  No candidate has an entry, and the results table
    has no rows. *)
Theorem load_data_absent_no_backfill :
  let s := load_data FileAbsent init in
  candidates s = default_candidates
  /\ total_votes s = 0
  /\ voting_open s = false
  /\ votes s = []
  /\ Forall (fun c => mem c (votes s) = false) (candidates s)
  /\ display_results s = [].
Proof.
  simpl. repeat split. repeat constructor.
Qed.

(** ** Editing the roster *)

Lemma len_set_nodup (l : list string) :
  (length l =? len_set l)%nat = true <-> NoDup l.
Proof.
  unfold len_set. rewrite Nat.eqb_eq. split.
  - intros H. induction l as [|a l IH]; [constructor|].
    simpl in H. destruct (in_dec string_dec a l) as [Hin|Hin].
    + pose proof (NoDup_incl_length (NoDup_nodup string_dec l)
                    (fun x Hx => proj1 (nodup_In string_dec l x) Hx)).
      simpl in H. lia.
    + simpl in H. constructor; [exact Hin|]. apply IH. lia.
  - intros H. now rewrite nodup_fixed_point.
Qed.

Lemma new_candidates_never_blank (entries : list string) :
  Forall (fun c => c <> "") (new_candidates entries).
Proof.
  unfold new_candidates. apply Forall_forall. intros c Hc.
  apply filter_In in Hc. destruct Hc as [_ Hc]. intros ->. discriminate.
Qed.

Lemma new_candidates_clean (entries : list string) :
  Forall clean_entry entries -> new_candidates entries = entries.
Proof.
  unfold new_candidates.
  induction 1 as [|e l [He Hn] _ IH]; simpl; [reflexivity|].
  rewrite He. destruct e; [contradiction|]. simpl. now f_equal.
Qed.

Lemma new_candidates_skip_blank (entries : list string) :
  new_candidates
    (filter (fun e => PyStr.truthy (PyStr.strip e)) entries)
  = new_candidates entries.
Proof.
  unfold new_candidates.
  induction entries as [|e l IH]; simpl; [reflexivity|].
  destruct (PyStr.truthy (PyStr.strip e)) eqn:E; simpl; rewrite ?E, IH;
    reflexivity.
Qed.

Lemma save_candidates_accepted (entries : list string) (s : VotingSystem) :
  (length (new_candidates entries) <= 32)%nat ->
  NoDup (new_candidates entries) ->
  save_candidates entries s
  = messagebox showinfo "Success"
      "Candidate list updated. All votes have been reset."
      (save_data
         (reset_votes_logic (set_candidates (new_candidates entries) s))).
Proof.
  intros Hl Hd. unfold save_candidates.
  destruct (Nat.ltb_spec 32 (length (new_candidates entries))); [lia|].
  apply len_set_nodup in Hd. rewrite Hd. reflexivity.
Qed.

(** C4, as the code has it: [save_candidates] looks at the names left after
    stripping every field and dropping the blank ones.  More than 32 of them
    give the "Limit Exceeded" box, a repeated one the "Duplicate Names" box,
    and in both cases nothing but the box happens: roster, counters and
    total stay.  A blank field is no error: it is skipped, and the outcome
    is the one of the same fields without it. *)
Theorem save_candidates_rejections (entries : list string)
    (s : VotingSystem) :
  ((32 < length (new_candidates entries))%nat ->
   save_candidates entries s
   = messagebox showerror "Limit Exceeded"
       ("You can have a maximum of 32 candidates. You have entered "
        ++ PyStr.of_nat (length (new_candidates entries)) ++ ".") s)
  /\ ((length (new_candidates entries) <= 32)%nat ->
      ~ NoDup (new_candidates entries) ->
      save_candidates entries s
      = messagebox showerror "Duplicate Names"
          "Candidate names must be unique." s)
  /\ ((32 < length (new_candidates entries))%nat
      \/ ~ NoDup (new_candidates entries) ->
      candidates (save_candidates entries s) = candidates s
      /\ votes (save_candidates entries s) = votes s
      /\ total_votes (save_candidates entries s) = total_votes s)
  /\ save_candidates
       (filter (fun e => PyStr.truthy (PyStr.strip e)) entries) s
     = save_candidates entries s.
Proof.
  assert (Hdup : ~ NoDup (new_candidates entries) ->
            (length (new_candidates entries)
             =? len_set (new_candidates entries))%nat = false).
  { intros H. destruct (_ =? _)%nat eqn:E; [|reflexivity].
    apply len_set_nodup in E. contradiction. }
  repeat split.
  - intros H. unfold save_candidates.
    apply Nat.ltb_lt in H. now rewrite H.
  - intros Hl Hd. unfold save_candidates.
    destruct (Nat.ltb_spec 32 (length (new_candidates entries))); [lia|].
    now rewrite Hdup.
  - unfold save_candidates.
    destruct (32 <? _)%nat eqn:E; [reflexivity|].
    destruct H as [H|H]; [apply Nat.ltb_lt in H; congruence|].
    now rewrite Hdup.
  - unfold save_candidates.
    destruct (32 <? _)%nat eqn:E; [reflexivity|].
    destruct H as [H|H]; [apply Nat.ltb_lt in H; congruence|].
    now rewrite Hdup.
  - unfold save_candidates.
    destruct (32 <? _)%nat eqn:E; [reflexivity|].
    destruct H as [H|H]; [apply Nat.ltb_lt in H; congruence|].
    now rewrite Hdup.
  - unfold save_candidates. now rewrite new_candidates_skip_blank.
Qed.

Lemma save_candidates_rejections_witness :
  ~ NoDup (new_candidates ["A"; "B"; " A"])
  /\ candidates (save_candidates ["A"; "B"; " A"] abc) = ["A"; "B"; "C"]
  /\ save_candidates ["A"; "B"; " A"] abc
     = messagebox showerror "Duplicate Names"
         "Candidate names must be unique." abc.
Proof.
  assert (H : ~ NoDup (new_candidates ["A"; "B"; " A"])).
  { intros H. inversion H as [|x l Hin _]; subst.
    apply Hin. simpl. auto. }
  split; [exact H|].
  destruct (save_candidates_rejections ["A"; "B"; " A"] abc)
    as (_ & Hd & Hs & _).
  split.
  - exact (proj1 (Hs (or_intror H))).
  - apply Hd; [simpl; lia | exact H].
Defined.

(** C4 as written fails on a blank field: it is dropped, the change goes
    through, the roster is replaced. *)
Lemma save_candidates_blank_accepted :
  In " " ["A"; " "; "B"] /\ PyStr.strip " " = ""
  /\ candidates (save_candidates ["A"; " "; "B"] abc) = ["A"; "B"]
  /\ candidates (save_candidates ["A"; " "; "B"] abc) <> candidates abc
  /\ last (events (save_candidates ["A"; " "; "B"] abc)) (LogEvent "")
     = MessageBox showinfo "Success"
         "Candidate list updated. All votes have been reset.".
Proof.
  split; [simpl; auto|]. split; [reflexivity|].
  split; [reflexivity|]. split; [simpl; discriminate | reflexivity].
Qed.

Lemma sorted_all_zero (l : list string) :
  sorted_by_count_desc (map (fun c => (c, 0)) l) = map (fun c => (c, 0)) l.
Proof.
  unfold sorted_by_count_desc.
  induction l as [|a l IH]; simpl; [reflexivity|].
  rewrite IH. destruct l; reflexivity.
Qed.

Lemma rows_all_zero (l : list string) (i : nat) :
  map (fun r => (r_candidate r, r_votes r, r_percent_text r))
    (map (fun ia => result_of 0 (fst ia) (snd ia))
       (enumerate_from i (map (fun c => (c, 0)) l)))
  = map (fun c => (c, 0, "0.0%")) l.
Proof.
  revert i.
  induction l as [|a l IH]; intros i; simpl; [reflexivity|].
  now rewrite IH.
Qed.

(** C5, as the code has it: when [save_candidates] accepts the fields, the
    roster becomes the stripped, non-blank names (the fields themselves when
    each is a name as it stands), [votes] becomes one zero entry per new
    candidate in roster order, and the total becomes 0, whatever the tallies
    were; the results table then lists every new candidate with 0 votes and
    "0.0%". *)
Theorem save_candidates_resets_tally (entries : list string)
    (s : VotingSystem) :
  (length (new_candidates entries) <= 32)%nat ->
  NoDup (new_candidates entries) ->
  let s' := save_candidates entries s in
  candidates s' = new_candidates entries
  /\ (Forall clean_entry entries -> candidates s' = entries)
  /\ votes s' = map (fun c => (c, 0)) (candidates s')
  /\ total_votes s' = 0
  /\ map (fun r => (r_candidate r, r_votes r, r_percent_text r))
       (display_results s')
     = map (fun c => (c, 0, "0.0%")) (candidates s')
  /\ last (events s') (LogEvent "")
     = MessageBox showinfo "Success"
         "Candidate list updated. All votes have been reset.".
Proof.
  intros Hl Hd s'. subst s'.
  rewrite save_candidates_accepted by assumption.
  rewrite reset_votes_logic_eq. simpl.
  rewrite zeroed_nodup by assumption.
  repeat split.
  - apply new_candidates_clean.
  - unfold display_results. simpl.
    rewrite sorted_all_zero. apply rows_all_zero.
  - apply last_last.
Qed.

Lemma save_candidates_resets_tally_witness :
  votes (castVote "A" (open_voting abc)) = [("A", 1); ("B", 0); ("C", 0)]
  /\ votes (save_candidates ["A"; "D"] (castVote "A" (open_voting abc)))
     = [("A", 0); ("D", 0)]
  /\ total_votes (save_candidates ["A"; "D"] (castVote "A" (open_voting abc)))
     = 0.
Proof.
  split; [reflexivity|].
  assert (Hd : NoDup (new_candidates ["A"; "D"])).
  { simpl. constructor.
    - simpl. intros [H|[]]. discriminate.
    - constructor; [simpl; tauto | constructor]. }
  destruct (save_candidates_resets_tally ["A"; "D"]
              (castVote "A" (open_voting abc)))
    as (Hc & _ & Hv & Ht & _); [simpl; lia | exact Hd |].
  split; [|exact Ht].
  rewrite Hv, Hc. reflexivity.
Defined.

(** C5 as written fails on the roster: the fields are accepted and the
    roster is not the list of fields, the blank one is gone and the padded
    one is stripped. *)
Lemma save_candidates_not_verbatim :
  last (events (save_candidates [" A"; ""] abc)) (LogEvent "")
  = MessageBox showinfo "Success"
      "Candidate list updated. All votes have been reset."
  /\ candidates (save_candidates [" A"; ""] abc) = ["A"]
  /\ candidates (save_candidates [" A"; ""] abc) <> [" A"; ""].
Proof.
  split; [reflexivity|]. split; [reflexivity | simpl; discriminate].
Qed.

(** ** The invariants *)

Lemma reset_votes_logic_consistent (s : VotingSystem) :
  totals_consistent (reset_votes_logic s)
  /\ roster_consistent (reset_votes_logic s)
  /\ candidates (reset_votes_logic s) = candidates s
  /\ Forall (fun v => v = 0) (values (votes (reset_votes_logic s))).
Proof.
  rewrite reset_votes_logic_eq.
  unfold totals_consistent, roster_consistent. simpl.
  assert (H : Forall (fun v => v = 0) (values (zeroed (candidates s)))).
  { apply values_fold_setitem. constructor. }
  repeat split; auto.
  - now rewrite sum_values_zero.
  - intros Hc. apply keys_fold_setitem in Hc. simpl in Hc. tauto.
  - intros Hc. apply keys_fold_setitem. auto.
Qed.

Lemma cast_vote_totals (s : VotingSystem) :
  totals_consistent s -> totals_consistent (cast_vote s).
Proof.
  unfold totals_consistent. intros H.
  destruct (voting_open s) eqn:Ho.
  - destruct (string_dec (selected_candidate s) "") as [Hs|Hs].
    + destruct (cast_vote_rejected s (or_intror Hs)) as (-> & -> & _).
      exact H.
    + destruct (cast_vote_counted s Ho Hs) as (-> & -> & _).
      rewrite sum_values_setitem. lia.
  - destruct (cast_vote_rejected s (or_introl Ho)) as (-> & -> & _).
    exact H.
Qed.

Lemma cast_vote_roster (s : VotingSystem) :
  selected_candidate s = "" \/ In (selected_candidate s) (candidates s) ->
  roster_consistent s -> roster_consistent (cast_vote s).
Proof.
  unfold roster_consistent. intros Hsel H c.
  destruct (voting_open s) eqn:Ho.
  - destruct (string_dec (selected_candidate s) "") as [Hs|Hs].
    + destruct (cast_vote_rejected s (or_intror Hs)) as (-> & _ & -> & _).
      apply H.
    + destruct (cast_vote_counted s Ho Hs) as (-> & _ & -> & _).
      rewrite keys_setitem, H.
      destruct Hsel as [Hsel|Hsel]; [contradiction|].
      intuition (subst; auto).
  - destruct (cast_vote_rejected s (or_introl Ho)) as (-> & _ & -> & _).
    apply H.
Qed.

Lemma save_candidates_cases (entries : list string) (s : VotingSystem) :
  (votes (save_candidates entries s) = votes s
   /\ candidates (save_candidates entries s) = candidates s
   /\ total_votes (save_candidates entries s) = total_votes s)
  \/ (votes (save_candidates entries s)
      = votes (reset_votes_logic (set_candidates (new_candidates entries) s))
      /\ candidates (save_candidates entries s) = new_candidates entries
      /\ total_votes (save_candidates entries s) = 0).
Proof.
  unfold save_candidates.
  destruct (32 <? _)%nat; [left; repeat split|].
  destruct (negb _); [left; repeat split|].
  right. rewrite reset_votes_logic_eq. repeat split.
Qed.

Section Invariants.

Variable sha256_hexdigest : string -> string.

Lemma reset_votes_cases (password : option string) (confirmed : bool)
    (s : VotingSystem) :
  (votes (reset_votes sha256_hexdigest password confirmed s) = votes s
   /\ total_votes (reset_votes sha256_hexdigest password confirmed s)
      = total_votes s
   \/ votes (reset_votes sha256_hexdigest password confirmed s)
      = votes (reset_votes_logic s)
      /\ total_votes (reset_votes sha256_hexdigest password confirmed s) = 0)
  /\ candidates (reset_votes sha256_hexdigest password confirmed s)
     = candidates s.
Proof.
  unfold reset_votes.
  destruct (negb _); [split; [left; split|]; reflexivity|].
  destruct confirmed; [|split; [left; split|]; reflexivity].
  rewrite reset_votes_logic_eq. split; [right; split|]; reflexivity.
Qed.

Lemma run_totals (cmd : command) (s : VotingSystem) :
  totals_consistent s -> totals_consistent (run sha256_hexdigest cmd s).
Proof.
  intros H. destruct cmd as [c| | | |p b|entries]; simpl.
  - apply cast_vote_totals. exact H.
  - unfold open_voting. destruct (voting_open s); exact H.
  - unfold close_voting. destruct (voting_open s); exact H.
  - unfold toggle_master_voting. simpl.
    destruct (voting_open s); exact H.
  - unfold totals_consistent in *.
    destruct (reset_votes_cases p b s) as ([(-> & ->)|(-> & ->)] & _).
    + exact H.
    + symmetry. apply sum_values_zero.
      apply (reset_votes_logic_consistent s).
  - unfold totals_consistent in *.
    destruct (save_candidates_cases entries s)
      as [(-> & _ & ->)|(-> & _ & ->)].
    + exact H.
    + symmetry. apply sum_values_zero.
      apply (reset_votes_logic_consistent
               (set_candidates (new_candidates entries) s)).
Qed.

Lemma run_roster (cmd : command) (s : VotingSystem) :
  roster_consistent s -> offered cmd s ->
  roster_consistent (run sha256_hexdigest cmd s).
Proof.
  intros H Hoff. destruct cmd as [c| | | |p b|entries]; simpl.
  - apply cast_vote_roster; [exact Hoff | exact H].
  - unfold open_voting. destruct (voting_open s); exact H.
  - unfold close_voting. destruct (voting_open s); exact H.
  - unfold toggle_master_voting. simpl.
    destruct (voting_open s); exact H.
  - unfold roster_consistent in *.
    destruct (reset_votes_cases p b s) as ([(-> & _)|(-> & _)] & ->).
    + exact H.
    + intros c. rewrite reset_votes_logic_eq. simpl.
      unfold zeroed. rewrite keys_fold_setitem. simpl. tauto.
  - unfold roster_consistent in *.
    destruct (save_candidates_cases entries s)
      as [(-> & -> & _)|(-> & -> & _)].
    + exact H.
    + intros c. rewrite reset_votes_logic_eq. simpl.
      unfold zeroed. rewrite keys_fold_setitem. simpl. tauto.
Qed.

End Invariants.

Lemma castVote_tally (c : string) (s : VotingSystem) :
  total_votes (castVote c s) - recorded (castVote c s)
  = total_votes s - recorded s
  /\ sum_values (votes (castVote c s)) - recorded (castVote c s)
     = sum_values (votes s) - recorded s
  /\ voting_open (castVote c s) = voting_open s.
Proof.
  unfold castVote.
  assert (Hopen : voting_open (cast_vote (select_candidate c s))
                  = voting_open s).
  { unfold cast_vote. simpl. destruct (voting_open s) eqn:E; simpl.
    - destruct (PyStr.truthy c); simpl; exact E.
    - exact E. }
  destruct (voting_open s) eqn:Ho.
  - destruct (string_dec c "") as [Hc|Hc].
    + destruct (cast_vote_rejected (select_candidate c s) (or_intror Hc))
        as (-> & -> & _ & ->).
      repeat split; auto.
    + destruct (cast_vote_counted (select_candidate c s) Ho Hc)
        as (-> & -> & _ & ->).
      rewrite sum_values_setitem. simpl. unfold recorded. simpl.
      repeat split; auto; lia.
  - destruct (cast_vote_rejected (select_candidate c s) (or_introl Ho))
      as (-> & -> & _ & ->).
    repeat split; auto.
Qed.

Lemma cast_all_tally (cs : list string) (s : VotingSystem) :
  total_votes (cast_all cs s) - recorded (cast_all cs s)
  = total_votes s - recorded s
  /\ sum_values (votes (cast_all cs s)) - recorded (cast_all cs s)
     = sum_values (votes s) - recorded s.
Proof.
  revert s. unfold cast_all.
  induction cs as [|c cs IH]; intros s; simpl; [split; reflexivity|].
  destruct (IH (castVote c s)) as [-> ->].
  destruct (castVote_tally c s) as (H1 & H2 & _). split; assumption.
Qed.

Lemma castVote_recorded_cases (c : string) (s : VotingSystem) :
  voting_open s = true ->
  (c = "" /\ recorded (castVote c s) = recorded s)
  \/ (c <> "" /\ recorded (castVote c s) = recorded s + 1).
Proof.
  intros Ho. unfold castVote.
  destruct (string_dec c "") as [Hc|Hc].
  - left. split; [exact Hc|].
    now destruct (cast_vote_rejected (select_candidate c s) (or_intror Hc))
      as (_ & _ & _ & ->).
  - right. split; [exact Hc|].
    now destruct (cast_vote_counted (select_candidate c s) Ho Hc)
      as (_ & _ & _ & ->).
Qed.

Lemma cast_all_recorded (cs : list string) (s : VotingSystem) :
  voting_open s = true ->
  recorded (cast_all cs s)
  = recorded s + Z.of_nat (length (filter PyStr.truthy cs)).
Proof.
  revert s. unfold cast_all.
  induction cs as [|c cs IH]; intros s Ho; simpl; [lia|].
  destruct (castVote_tally c s) as (_ & _ & Ho').
  rewrite IH by congruence.
  destruct (castVote_recorded_cases c s Ho) as [[-> ->]|[Hc ->]]; simpl.
  - lia.
  - destruct c; [contradiction|]. simpl length. lia.
Qed.

(** C1, as the code has it.  Every command keeps
    [total_votes == sum(votes.values())] once it holds, and
    [reset_votes_logic] (hence an accepted reset or roster change) makes it
    hold together with [set(votes.keys()) == set(candidates)].  The second
    invariant is kept by every command provided the name voted for is one
    the roster offers (or none).  For any sequence of [castVote] calls the
    total and the sum of the counters both grow by the number of votes
    acknowledged, which while voting is open is the number of non-empty
    names in the sequence. *)
Theorem ballot_invariants (sha256_hexdigest : string -> string)
    (cmd : command) (cs : list string) (s : VotingSystem) :
  (totals_consistent s -> totals_consistent (run sha256_hexdigest cmd s))
  /\ (roster_consistent s -> offered cmd s ->
      roster_consistent (run sha256_hexdigest cmd s))
  /\ totals_consistent (reset_votes_logic s)
  /\ roster_consistent (reset_votes_logic s)
  /\ total_votes (cast_all cs s)
     = total_votes s + (recorded (cast_all cs s) - recorded s)
  /\ sum_values (votes (cast_all cs s))
     = sum_values (votes s) + (recorded (cast_all cs s) - recorded s)
  /\ (voting_open s = true ->
      recorded (cast_all cs s) - recorded s
      = Z.of_nat (length (filter PyStr.truthy cs)))
  /\ (totals_consistent s -> totals_consistent (cast_all cs s)).
Proof.
  destruct (cast_all_tally cs s) as [Ht Hs].
  split; [apply run_totals|].
  split; [apply run_roster|].
  split; [apply reset_votes_logic_consistent|].
  split; [apply reset_votes_logic_consistent|].
  split; [lia|]. split; [lia|]. split.
  - intros Ho. rewrite cast_all_recorded by exact Ho. lia.
  - unfold totals_consistent. lia.
Qed.

Lemma ballot_invariants_witness :
  totals_consistent (open_voting abc)
  /\ roster_consistent (open_voting abc)
  /\ offered (CastVote "B") (open_voting abc)
  /\ totals_consistent (run toy_digest (CastVote "B") (open_voting abc))
  /\ roster_consistent (run toy_digest (CastVote "B") (open_voting abc))
  /\ total_votes (cast_all ["A"; ""; "B"; "A"] (open_voting abc)) = 3.
Proof.
  assert (Ht : totals_consistent (open_voting abc)) by reflexivity.
  assert (Hr : roster_consistent (open_voting abc)).
  { intros c. simpl. tauto. }
  assert (Ho : offered (CastVote "B") (open_voting abc)).
  { right. simpl. auto. }
  destruct (ballot_invariants toy_digest (CastVote "B") ["A"; ""; "B"; "A"]
              (open_voting abc))
    as (H1 & H2 & _ & _ & H3 & _ & H4 & _).
  split; [exact Ht|]. split; [exact Hr|]. split; [exact Ho|].
  split; [exact (H1 Ht)|]. split; [exact (H2 Hr Ho)|].
  rewrite H3, (H4 eq_refl). reflexivity.
Defined.

(** C1 as written fails.  [fresh_open] satisfies both invariants; the voter
    chooses "Candidate 1", which the roster offers; the roster is replaced
    and the choice stays in the variable behind the radio buttons; the vote
    is then accepted, and [votes] has a key that is no candidate. *)
Lemma stale_vote_breaks_roster :
  totals_consistent fresh_open
  /\ roster_consistent fresh_open
  /\ In "Candidate 1" (candidates fresh_open)
  /\ candidates stale_vote = ["A"; "B"]
  /\ votes stale_vote = [("A", 0); ("B", 0); ("Candidate 1", 1)]
  /\ ~ roster_consistent stale_vote.
Proof.
  split; [reflexivity|]. split; [intros c; simpl; tauto|].
  split; [simpl; auto|]. split; [reflexivity|]. split; [reflexivity|].
  intros H.
  assert (Hin : In "Candidate 1" (keys (votes stale_vote)))
    by (simpl; auto).
  apply H in Hin. simpl in Hin.
  destruct Hin as [E|[E|[]]]; discriminate.
Qed.

(** The first run, where no ballot file exists, starts from a state in which
    the second invariant does not hold, and opening the vote keeps it so. *)
Lemma first_run_roster_inconsistent :
  ~ roster_consistent (open_voting (load_data FileAbsent init)).
Proof.
  intros H. specialize (H "Candidate 1"). simpl in H.
  destruct H as [_ H]. apply H. auto.
Qed.

(** ** The results table *)

Lemma insert_desc_perm (x : string * Z) (l : dict) :
  Permutation (insert_desc x l) (x :: l).
Proof.
  induction l as [|y l IH]; simpl; [reflexivity|].
  destruct (snd x <? snd y); [|reflexivity].
  rewrite IH. apply perm_swap.
Qed.

Lemma sorted_by_count_desc_perm (l : dict) :
  Permutation (sorted_by_count_desc l) l.
Proof.
  unfold sorted_by_count_desc.
  induction l as [|x l IH]; simpl; [constructor|].
  rewrite insert_desc_perm. now constructor.
Qed.

Lemma insert_desc_sorted (x : string * Z) (l : dict) :
  StronglySorted count_ge l -> StronglySorted count_ge (insert_desc x l).
Proof.
  induction 1 as [|y l Hs IH Hy]; simpl.
  - repeat constructor.
  - destruct (Z.ltb_spec (snd x) (snd y)).
    + constructor; [exact IH|].
      apply Forall_forall. intros z Hz.
      apply (Permutation_in _ (insert_desc_perm x l)) in Hz.
      destruct Hz as [<-|Hz].
      * unfold count_ge. lia.
      * rewrite Forall_forall in Hy. now apply Hy.
    + constructor; [now constructor|].
      constructor; [exact H|].
      eapply Forall_impl; [|exact Hy].
      unfold count_ge. intros z Hz. lia.
Qed.

Lemma sorted_by_count_desc_sorted (l : dict) :
  StronglySorted count_ge (sorted_by_count_desc l).
Proof.
  unfold sorted_by_count_desc.
  induction l as [|x l IH]; simpl; [constructor|].
  now apply insert_desc_sorted.
Qed.

Lemma filter_insert_desc (k : Z) (x : string * Z) (l : dict) :
  filter (has_count k) (insert_desc x l) = filter (has_count k) (x :: l).
Proof.
  induction l as [|y l IH]; [reflexivity|].
  simpl insert_desc.
  destruct (Z.ltb_spec (snd x) (snd y)); [|reflexivity].
  simpl in *. rewrite IH. unfold has_count.
  destruct (Z.eqb_spec (snd x) k); [|reflexivity].
  destruct (Z.eqb_spec (snd y) k); [lia | reflexivity].
Qed.

(** The sort is stable: the items of one count come out in the order they
    went in. *)
Lemma sorted_by_count_desc_stable (k : Z) (l : dict) :
  filter (has_count k) (sorted_by_count_desc l) = filter (has_count k) l.
Proof.
  unfold sorted_by_count_desc.
  induction l as [|x l IH]; [reflexivity|].
  simpl fold_right. rewrite filter_insert_desc. simpl. now rewrite IH.
Qed.

Lemma items_of_rows (total : Z) (l : dict) (i : nat) :
  map item_of
    (map (fun ia => result_of total (fst ia) (snd ia)) (enumerate_from i l))
  = l.
Proof.
  revert i.
  induction l as [|[c v] l IH]; intros i; simpl; [reflexivity|].
  now rewrite IH.
Qed.

Lemma display_results_items (s : VotingSystem) :
  map item_of (display_results s) = sorted_by_count_desc (votes s).
Proof. apply items_of_rows. Qed.

Lemma rows_percentage (total : Z) (l : dict) (i : nat) :
  Forall (fun r =>
            r_percentage r = percentage_of total (r_votes r)
            /\ r_percent_text r = format_1f (r_percentage r) ++ "%")
    (map (fun ia => result_of total (fst ia) (snd ia)) (enumerate_from i l)).
Proof.
  revert i.
  induction l as [|[c v] l IH]; intros i; simpl; constructor; auto.
Qed.

(** [round_tenths] gives a nearest tenth. *)
Lemma round_tenths_nearest (x : Q) :
  2 * Z.abs (round_tenths x * Zpos (Qden x) - 10 * Qnum x) <= Zpos (Qden x).
Proof.
  unfold round_tenths.
  set (n := 10 * Qnum x). set (d := Zpos (Qden x)).
  assert (Hd : 0 < d) by (subst d; lia).
  pose proof (Z.div_mod n d ltac:(lia)) as Hdm.
  pose proof (Z.mod_pos_bound n d Hd) as Hr.
  destruct (Z.ltb_spec (2 * (n mod d)) d);
    [|destruct (Z.ltb_spec d (2 * (n mod d)));
      [|destruct (Z.even (n / d))]]; nia.
Qed.

Lemma round_tenths_near (x : Q) :
  (Qabs (inject_Z (round_tenths x) / 10 - x) <= 1 # 20)%Q.
Proof.
  pose proof (round_tenths_nearest x) as H.
  revert H. generalize (round_tenths x). intros t H.
  destruct x as [n d]. cbn [Qnum Qden] in H.
  apply Qabs_Qle_condition.
  unfold Qle, Qdiv, Qminus, Qplus, Qmult, Qinv, Qopp, inject_Z.
  cbn [Qnum Qden]. rewrite ?Pos2Z.inj_mul.
  split; lia.
Qed.

Lemma round_tenths_tie (x : Q) :
  (Qabs (inject_Z (round_tenths x) / 10 - x) == 1 # 20)%Q ->
  Z.even (round_tenths x) = true.
Proof.
  intros H.
  assert (Hz : 2 * Z.abs (round_tenths x * Zpos (Qden x) - 10 * Qnum x)
               = Zpos (Qden x)).
  { revert H. generalize (round_tenths x). intros t H.
    destruct x as [n d].
    unfold Qeq, Qabs, Qdiv, Qminus, Qplus, Qmult, Qinv, Qopp, inject_Z in H.
    cbn [Qnum Qden] in *. rewrite ?Pos2Z.inj_mul in H. lia. }
  clear H. revert Hz. unfold round_tenths.
  set (n := 10 * Qnum x). set (d := Zpos (Qden x)).
  assert (Hd : 0 < d) by (subst d; lia).
  pose proof (Z.div_mod n d ltac:(lia)) as Hdm.
  pose proof (Z.mod_pos_bound n d Hd) as Hr.
  destruct (Z.ltb_spec (2 * (n mod d)) d); [intros; nia|].
  destruct (Z.ltb_spec d (2 * (n mod d))); [intros; nia|].
  destruct (Z.even (n / d)) eqn:E; intros _; [exact E|].
  rewrite Z.add_1_r, Z.even_succ, <- Z.negb_even, E. reflexivity.
Qed.

Lemma magnitude_nonneg (x : spec_float) : (0 <= magnitude x)%Q.
Proof.
  destruct x as [sg|sg| |sg m e]; simpl; try apply Qle_refl.
  apply Qmult_le_0_compat.
  - unfold Qle. simpl. lia.
  - apply Qpower_0_le. unfold Qle. simpl. lia.
Qed.

Lemma round_tenths_nonneg (x : Q) : (0 <= x)%Q -> 0 <= round_tenths x.
Proof.
  unfold Qle. simpl. rewrite Z.mul_1_r. intros H.
  unfold round_tenths.
  assert (0 <= 10 * Qnum x / Zpos (Qden x)) by (apply Z.div_pos; lia).
  destruct (_ <? _); [assumption|].
  destruct (_ <? _); [lia|]. destruct (Z.even _); lia.
Qed.

Lemma append_sign (sg : bool) (a b : string) :
  (sign_text sg ++ a) ++ b = sign_text sg ++ a ++ b.
Proof. now destruct sg. Qed.

(** A vote for a name that has an entry leaves the order of the keys. *)
Lemma keys_setitem_present (k : string) (v : Z) (d : dict) :
  In k (keys d) -> keys (setitem k v d) = keys d.
Proof.
  unfold keys.
  induction d as [|[k' v'] d IH]; simpl; intros H; [contradiction|].
  destruct (String.eqb_spec k' k); simpl; [reflexivity|].
  f_equal. apply IH. tauto.
Qed.

Lemma reset_votes_logic_ordered (s : VotingSystem) :
  NoDup (candidates s) -> roster_ordered (reset_votes_logic s).
Proof.
  intros H. unfold roster_ordered.
  rewrite reset_votes_logic_eq. simpl.
  rewrite zeroed_nodup by exact H.
  unfold keys. rewrite map_map. apply map_id.
Qed.

Lemma cast_vote_ordered (s : VotingSystem) :
  selected_candidate s = "" \/ In (selected_candidate s) (candidates s) ->
  roster_ordered s -> roster_ordered (cast_vote s).
Proof.
  unfold roster_ordered. intros Hsel H.
  destruct (voting_open s) eqn:Ho.
  - destruct (string_dec (selected_candidate s) "") as [Hs|Hs].
    + destruct (cast_vote_rejected s (or_intror Hs)) as (-> & _ & -> & _).
      exact H.
    + destruct (cast_vote_counted s Ho Hs) as (-> & _ & -> & _).
      destruct Hsel as [Hsel|Hsel]; [contradiction|].
      rewrite keys_setitem_present; [exact H | now rewrite H].
  - destruct (cast_vote_rejected s (or_introl Ho)) as (-> & _ & -> & _).
    exact H.
Qed.

(** In a dictionary without repeated keys, the keys holding count [k] are
    the keys of the items holding it. *)
Lemma keys_with_count (k : Z) (d : dict) :
  NoDup (keys d) ->
  map fst (filter (has_count k) d)
  = filter (fun c => has_count k (c, get c 0 d)) (keys d).
Proof.
  induction d as [|[c v] d IH]; intros Hnd; [reflexivity|].
  inversion Hnd as [|? ? Hc Hd]; subst.
  assert (Hext : filter (fun c0 => has_count k (c0, get c0 0 ((c, v) :: d)))
                   (keys d)
                 = filter (fun c0 => has_count k (c0, get c0 0 d)) (keys d)).
  { apply filter_ext_in. intros a Ha. simpl.
    destruct (String.eqb_spec c a); [subst; contradiction | reflexivity]. }
  change (keys ((c, v) :: d)) with (c :: keys d).
  cbn [filter]. rewrite Hext, <- (IH Hd).
  cbn [get]. rewrite String.eqb_refl.
  destruct (has_count k (c, v)); reflexivity.
Qed.

(** C7, as the code has it: the rows of [display_results] are the items of
    [votes], one row per entry (the candidates, in roster order, when the
    dictionary lists the roster), in descending order of count; rows with
    the same count keep the order the items had in the dictionary, so the
    sort is stable.  The percentage of a row is [votes / total_votes * 100]
    in binary64 when the total is positive (and the quotient within the
    range of a float), and the text shown is the decimal with one digit
    nearest to that float, halves to even, with the float's sign; when the
    total is not positive the text is "0.0%". *)
Theorem display_results_sorted_stable (s : VotingSystem) :
  let rows := display_results s in
  Permutation (map item_of rows) (votes s)
  /\ StronglySorted count_ge (map item_of rows)
  /\ (forall k, filter (has_count k) (map item_of rows)
                = filter (has_count k) (votes s))
  /\ Forall (fun r =>
       (0 < total_votes s ->
        (forall sg,
           SFdiv 53 1024 (float_of_int (r_votes r))
             (float_of_int (total_votes s)) <> S754_infinity sg) ->
        r_percentage r
        = SFmul 53 1024
            (SFdiv 53 1024 (float_of_int (r_votes r))
               (float_of_int (total_votes s)))
            (float_of_int 100))
       /\ (total_votes s <= 0 -> r_percent_text r = "0.0%")
       /\ (forall sg, r_percentage r = S754_zero sg ->
           r_percent_text r = sign_text sg ++ "0.0%")
       /\ (forall sg m e, r_percentage r = S754_finite sg m e ->
           exists t,
             r_percent_text r = sign_text sg ++ tenths_text t ++ "%"
             /\ 0 <= t
             /\ (Qabs (inject_Z t / 10 - inject_Z (Zpos m) * 2 ^ e)
                 <= 1 # 20)%Q
             /\ ((Qabs (inject_Z t / 10 - inject_Z (Zpos m) * 2 ^ e)
                  == 1 # 20)%Q -> Z.even t = true))) rows
  /\ (roster_ordered s ->
      Permutation (map r_candidate rows) (candidates s))
  /\ (roster_ordered s -> NoDup (candidates s) ->
      forall k,
        map fst (filter (has_count k) (map item_of rows))
        = filter (fun c => has_count k (c, get c 0 (votes s)))
            (candidates s)).
Proof.
  intros rows. subst rows.
  rewrite display_results_items.
  split; [apply sorted_by_count_desc_perm|].
  split; [apply sorted_by_count_desc_sorted|].
  split; [intros k; apply sorted_by_count_desc_stable|].
  split; [|split].
  - eapply Forall_impl; [|apply rows_percentage].
    intros r [Hp Ht]. rewrite Ht, Hp.
    split; [|split; [|split]].
    + intros H _. unfold percentage_of.
      destruct (Z.ltb_spec 0 (total_votes s)); [reflexivity | lia].
    + intros H. unfold percentage_of.
      destruct (Z.ltb_spec 0 (total_votes s)); [lia | reflexivity].
    + intros sg ->. apply append_sign.
    + intros sg m e ->.
      exists (round_tenths (magnitude (S754_finite sg m e))).
      split; [apply append_sign|].
      split; [apply round_tenths_nonneg, magnitude_nonneg|].
      split; [apply round_tenths_near | apply round_tenths_tie].
  - intros Hro.
    replace (map r_candidate (display_results s))
      with (map fst (map item_of (display_results s)))
      by (rewrite map_map; reflexivity).
    rewrite display_results_items, <- Hro.
    apply Permutation_map, sorted_by_count_desc_perm.
  - intros Hro Hnd k.
    rewrite sorted_by_count_desc_stable, <- Hro.
    apply keys_with_count. now rewrite Hro.
Qed.

Lemma display_results_sorted_stable_witness :
  roster_ordered (castVote "B" (castVote "C" (open_voting abc)))
  /\ map r_candidate
       (display_results (castVote "B" (castVote "C" (open_voting abc))))
     = ["B"; "C"; "A"]
  /\ Permutation
       (map r_candidate
          (display_results (castVote "B" (castVote "C" (open_voting abc)))))
       ["A"; "B"; "C"]
  /\ 0 < total_votes eighty_votes
  /\ map r_percentage (firstn 1 (display_results eighty_votes))
     = [SFmul 53 1024
          (SFdiv 53 1024 (float_of_int 57) (float_of_int 80))
          (float_of_int 100)].
Proof.
  assert (Hro : roster_ordered
                  (castVote "B" (castVote "C" (open_voting abc))))
    by (vm_compute; reflexivity).
  split; [exact Hro|]. split; [vm_compute; reflexivity|].
  destruct (display_results_sorted_stable
              (castVote "B" (castVote "C" (open_voting abc))))
    as (_ & _ & _ & _ & H & _).
  split; [exact (H Hro)|].
  assert (Ht : 0 < total_votes eighty_votes) by reflexivity.
  split; [exact Ht|].
  destruct (display_results_sorted_stable eighty_votes)
    as (_ & _ & _ & Hrows & _).
  destruct (display_results eighty_votes) as [|r rest] eqn:E;
    [vm_compute in E; discriminate|].
  apply Forall_inv in Hrows. destruct Hrows as (H1 & _).
  assert (Hv : r_votes r = 57).
  { vm_compute in E. injection E as E _. rewrite <- E. reflexivity. }
  simpl. rewrite H1; [|exact Ht|].
  - rewrite Hv. reflexivity.
  - intros sg. rewrite Hv. vm_compute. discriminate.
Defined.

(** C7 as written fails twice.  After [stale_vote] the table has a row for
    "Candidate 1", which is no candidate.  And with 23 votes of 80 the code
    shows "28.7%": the product computed in binary64 lies just below 28.75,
    the exact percentage, whose nearest tenth with halves to even (or
    halves up) is 28.8. *)
Lemma display_results_off_roster :
  map r_candidate (display_results stale_vote) = ["Candidate 1"; "A"; "B"]
  /\ candidates stale_vote = ["A"; "B"]
  /\ ~ In "Candidate 1" (candidates stale_vote)
  /\ map (fun r => (r_candidate r, r_votes r, r_percent_text r))
       (display_results eighty_votes)
     = [("B", 57, "71.2%"); ("A", 23, "28.7%"); ("C", 0, "0.0%")]
  /\ total_votes eighty_votes = 80
  /\ (inject_Z 23 / inject_Z 80 * 100 == 115 # 4)%Q
  /\ round_tenths (inject_Z 23 / inject_Z 80 * 100) = 288.
Proof.
  split; [vm_compute; reflexivity|]. split; [reflexivity|].
  split.
  - simpl. intros [H|[H|[]]]; discriminate.
  - split; [vm_compute; reflexivity|]. split; [vm_compute; reflexivity|].
    split; [reflexivity | vm_compute; reflexivity].
Qed.

Example eighty_votes_reachable :
  ballot_of (cast_all (repeat "A" 23 ++ repeat "B" 57)%list (open_voting abc))
  = ballot_of eighty_votes.
Proof. vm_compute. reflexivity. Qed.

(** ** More on casting votes *)

Lemma get_setitem_other (k k' : string) (v dflt : Z) (d : dict) :
  k <> k' -> get k dflt (setitem k' v d) = get k dflt d.
Proof.
  intros Hk.
  induction d as [|[a w] d IH]; simpl.
  - destruct (String.eqb_spec k' k); [congruence | reflexivity].
  - destruct (String.eqb_spec a k'); simpl.
    + subst. destruct (String.eqb_spec k' k); [congruence | reflexivity].
    + destruct (String.eqb_spec a k); [reflexivity | exact IH].
Qed.

Lemma keys_setitem_cases (k : string) (v : Z) (d : dict) :
  keys (setitem k v d) = if mem k d then keys d else (keys d ++ [k])%list.
Proof.
  destruct (mem k d) eqn:E.
  - apply keys_setitem_present. now apply mem_keys.
  - rewrite setitem_fresh.
    + unfold keys. now rewrite map_app.
    + intros H. apply mem_keys in H. congruence.
Qed.

Lemma castVote_get (s : VotingSystem) (c : string) :
  voting_open s = true -> c <> "" ->
  get c 0 (votes (castVote c s)) = get c 0 (votes s) + 1
  /\ (forall k, k <> c ->
        get k 0 (votes (castVote c s)) = get k 0 (votes s)).
Proof.
  intros Ho Hc.
  destruct (cast_vote_counted (select_candidate c s) Ho Hc) as (Hv & _).
  unfold castVote. rewrite Hv. simpl.
  split; [apply get_setitem_same|].
  intros k Hk. now apply get_setitem_other.
Qed.

(** An accepted vote adds one to the counter of the name voted for and to
    no other: every other name reads as before, no entry moves, and the
    only entry that can appear is one for the name voted for, at the end. *)
Theorem castVote_one_counter (s : VotingSystem) (c : string) :
  voting_open s = true -> c <> "" ->
  get c 0 (votes (castVote c s)) = get c 0 (votes s) + 1
  /\ (forall k, k <> c ->
        get k 0 (votes (castVote c s)) = get k 0 (votes s))
  /\ keys (votes (castVote c s))
     = (if mem c (votes s) then keys (votes s)
        else (keys (votes s) ++ [c])%list)
  /\ candidates (castVote c s) = candidates s
  /\ voting_open (castVote c s) = true.
Proof.
  intros Ho Hc.
  destruct (cast_vote_counted (select_candidate c s) Ho Hc)
    as (Hv & _ & Hcs & _).
  destruct (castVote_tally c s) as (_ & _ & Hop).
  unfold castVote. rewrite Hv. simpl.
  split; [apply get_setitem_same|].
  split; [intros k Hk; now apply get_setitem_other|].
  split; [apply keys_setitem_cases|].
  split; [exact Hcs|].
  unfold castVote in Hop. now rewrite Hop.
Qed.

Lemma castVote_one_counter_witness :
  voting_open (open_voting abc) = true
  /\ get "B" 0 (votes (castVote "B" (open_voting abc))) = 1
  /\ get "A" 0 (votes (castVote "B" (open_voting abc))) = 0.
Proof.
  split; [reflexivity|].
  destruct (castVote_one_counter (open_voting abc) "B" eq_refl)
    as (H1 & H2 & _); [discriminate|].
  split; [exact H1|].
  apply H2. discriminate.
Defined.

(** A recorded vote empties the selection, so that a second press of
    CAST VOTE without a new choice is turned down with the "No Selection"
    warning and counts nothing. *)
Theorem cast_vote_twice (s : VotingSystem) :
  voting_open s = true -> selected_candidate s <> "" ->
  selected_candidate (cast_vote s) = ""
  /\ cast_vote (cast_vote s)
     = messagebox showwarning "No Selection"
         "Please select a candidate before casting your vote." (cast_vote s)
  /\ votes (cast_vote (cast_vote s)) = votes (cast_vote s)
  /\ total_votes (cast_vote (cast_vote s)) = total_votes s + 1.
Proof.
  intros Ho Hs.
  assert (H : selected_candidate (cast_vote s) = ""
              /\ voting_open (cast_vote s) = true).
  { unfold cast_vote. rewrite Ho. simpl.
    destruct (PyStr.truthy (selected_candidate s)) eqn:E; simpl.
    - split; [reflexivity | exact Ho].
    - apply truthy_false in E. contradiction. }
  destruct H as [Hsel Hopen].
  destruct (cast_vote_counted s Ho Hs) as (_ & Ht & _).
  assert (Hagain : cast_vote (cast_vote s)
            = messagebox showwarning "No Selection"
                "Please select a candidate before casting your vote."
                (cast_vote s)).
  { unfold cast_vote at 1. rewrite Hopen, Hsel. reflexivity. }
  rewrite Hagain. repeat split; auto.
Qed.

Lemma cast_vote_twice_witness :
  voting_open (select_candidate "A" (open_voting abc)) = true
  /\ total_votes
       (cast_vote (cast_vote (select_candidate "A" (open_voting abc)))) = 1.
Proof.
  split; [reflexivity|].
  destruct (cast_vote_twice (select_candidate "A" (open_voting abc)) eq_refl)
    as (_ & _ & _ & H); [discriminate|].
  exact H.
Defined.

Lemma cast_all_open (cs : list string) (s : VotingSystem) :
  voting_open (cast_all cs s) = voting_open s.
Proof.
  revert s. unfold cast_all.
  induction cs as [|c cs IH]; intros s; simpl; [reflexivity|].
  rewrite IH. apply castVote_tally.
Qed.

Lemma castVote_empty (s : VotingSystem) :
  votes (castVote "" s) = votes s.
Proof.
  unfold castVote.
  now destruct (cast_vote_rejected (select_candidate "" s)
                  (or_intror eq_refl)) as (-> & _).
Qed.

(** The tally is right: while voting is open, after any sequence of
    [castVote] calls the counter of a name is what it was plus the number of
    calls made for that name.  The order of the calls does not matter. *)
Theorem cast_all_counts (cs : list string) (s : VotingSystem) (k : string) :
  voting_open s = true -> k <> "" ->
  get k 0 (votes (cast_all cs s))
  = get k 0 (votes s) + Z.of_nat (count_occ string_dec cs k).
Proof.
  intros Ho Hk. revert s Ho. unfold cast_all.
  induction cs as [|c cs IH]; intros s Ho; simpl fold_left.
  - simpl. lia.
  - destruct (castVote_tally c s) as (_ & _ & Hop).
    rewrite IH by congruence.
    destruct (string_dec c "") as [->|Hc].
    + rewrite castVote_empty. cbn [count_occ].
      destruct (string_dec "" k); [congruence | lia].
    + destruct (castVote_get s c Ho Hc) as (H1 & H2).
      cbn [count_occ]. destruct (string_dec c k) as [->|Hne].
      * rewrite H1. lia.
      * rewrite H2 by congruence. lia.
Qed.

Lemma cast_all_counts_witness :
  voting_open (open_voting abc) = true
  /\ get "A" 0 (votes (cast_all ["A"; "B"; ""; "A"] (open_voting abc))) = 2.
Proof.
  split; [reflexivity|].
  rewrite (cast_all_counts ["A"; "B"; ""; "A"] (open_voting abc) "A"
             eq_refl); [reflexivity | discriminate].
Defined.

Lemma setitem_nonneg (k : string) (v : Z) (d : dict) :
  0 <= v -> Forall (fun v => 0 <= v) (values d) ->
  Forall (fun v => 0 <= v) (values (setitem k v d)).
Proof.
  unfold values. intros Hv.
  induction d as [|[a w] d IH]; simpl; intros H.
  - repeat constructor. exact Hv.
  - inversion H; subst.
    destruct (String.eqb a k); simpl; constructor; auto.
Qed.

Lemma get_nonneg (k : string) (d : dict) :
  Forall (fun v => 0 <= v) (values d) -> 0 <= get k 0 d.
Proof.
  unfold values.
  induction d as [|[a w] d IH]; simpl; intros H; [lia|].
  inversion H; subst. destruct (String.eqb a k); auto.
Qed.

Lemma zeroed_nonneg (l : list string) :
  Forall (fun v => 0 <= v) (values (zeroed l)).
Proof.
  eapply Forall_impl; [|apply values_fold_setitem; constructor].
  simpl. intros v ->. lia.
Qed.

(** ** What every command keeps *)

Lemma last_saved_snoc (evs : list event) (e : event) :
  last_saved (evs ++ [e])
  = match e with SaveData d => Some d | _ => last_saved evs end.
Proof.
  unfold last_saved. rewrite fold_left_app. simpl. now destruct e.
Qed.

Lemma last_saved_password_snoc (evs : list event) (e : event) :
  last_saved_password (evs ++ [e])
  = match e with
    | SavePassword h => Some h
    | _ => last_saved_password evs
    end.
Proof.
  unfold last_saved_password. rewrite fold_left_app. simpl. now destruct e.
Qed.

Lemma log_lines_snoc (evs : list event) (e : event) :
  log_lines (evs ++ [e])
  = (log_lines evs ++ match e with LogEvent m => [m] | _ => [] end)%list.
Proof.
  unfold log_lines. rewrite flat_map_app. simpl. now rewrite app_nil_r.
Qed.

(** Unfolds a handler down to the record it returns, one case per guard. *)
Ltac handler :=
  unfold run, castVote, cast_vote, open_voting, close_voting,
    toggle_master_voting, reset_votes, save_candidates, do_change;
  repeat rewrite reset_votes_logic_eq;
  repeat match goal with
         | |- context [if ?b then _ else _] => destruct b eqn:?
         | |- context [match ?p with Some _ => _ | None => _ end] =>
             destruct p eqn:?
         end;
  repeat rewrite reset_votes_logic_eq;
  cbn [votes candidates total_votes voting_open admin_password_hash
       selected_candidate events ballot_of
       messagebox log_event save_data save_password emit
       set_votes set_candidates set_total_votes set_voting_open
       set_admin_password_hash set_selected_candidate select_candidate].

Section Commands.

Variable sha256_hexdigest : string -> string.

Lemma run_saves (cmd : command) (s : VotingSystem) :
  (ballot_of (run sha256_hexdigest cmd s) = ballot_of s
   /\ last_saved (events (run sha256_hexdigest cmd s))
      = last_saved (events s))
  \/ persisted (run sha256_hexdigest cmd s).
Proof.
  unfold persisted.
  destruct cmd as [c| | | |p b|entries]; handler;
    rewrite ?last_saved_snoc; cbn [negb] in *;
    try (left; split; reflexivity);
    try (right; reflexivity).
Qed.

(** Whatever changes the ballot hands it to [save_data]: after any command,
    either the candidates, counters, total and open flag are the ones
    before it, or the latest call of [save_data] was made with exactly the
    ones now in memory.  So if the latest call carried the ballot in memory
    before a command, it does after it; and closing the main window calls
    [save_data] with the ballot in memory. *)
Theorem ballot_saved_on_change (cmd : command) (s : VotingSystem) :
  (ballot_of (run sha256_hexdigest cmd s) <> ballot_of s ->
   persisted (run sha256_hexdigest cmd s))
  /\ (persisted s -> persisted (run sha256_hexdigest cmd s))
  /\ persisted (on_main_window_close s).
Proof.
  destruct (run_saves cmd s) as [[Hb Hl]|Hp].
  - split; [intros H; contradiction|]. split.
    + unfold persisted. intros H. now rewrite Hl, Hb.
    + unfold persisted, on_main_window_close, save_data. simpl.
      now rewrite last_saved_snoc.
  - split; [auto|]. split; [auto|].
    unfold persisted, on_main_window_close, save_data. simpl.
    now rewrite last_saved_snoc.
Qed.

(** The audit log hears of the opening and closing of the vote and of
    nothing else: votes, resets of the tally and changes of the roster ask
    no line of it.  The toggle always logs, as an override; [open_voting]
    and [close_voting] log only when they change the flag. *)
Theorem audit_log_lines (cmd : command) (s : VotingSystem) :
  log_lines (events (run sha256_hexdigest cmd s))
  = (log_lines (events s)
     ++ match cmd with
        | OpenVoting =>
            if voting_open s then [] else ["Voting Opened Manually"]
        | CloseVoting =>
            if voting_open s then ["Voting Closed Manually"] else []
        | ToggleVoting =>
            if voting_open s then ["Voting Closed Manually (Override)"]
            else ["Voting Opened Manually (Override)"]
        | _ => []
        end)%list.
Proof.
  destruct cmd as [c| | | |p b|entries]; handler;
    rewrite ?log_lines_snoc; cbn [negb] in *;
    rewrite ?app_nil_r; try reflexivity; try discriminate;
    rewrite <- ?app_assoc; try reflexivity.
Qed.

(** No command on the ballot touches the credential, and a change of
    password touches nothing of the ballot, writes no ballot file and logs
    nothing. *)
Theorem credential_and_ballot_apart (cmd : command)
    (current new confirm : string) (s : VotingSystem) :
  admin_password_hash (run sha256_hexdigest cmd s) = admin_password_hash s
  /\ last_saved_password (events (run sha256_hexdigest cmd s))
     = last_saved_password (events s)
  /\ ballot_of (do_change sha256_hexdigest current new confirm s)
     = ballot_of s
  /\ last_saved (events (do_change sha256_hexdigest current new confirm s))
     = last_saved (events s)
  /\ log_lines (events (do_change sha256_hexdigest current new confirm s))
     = log_lines (events s).
Proof.
  split; [|split; [|split; [|split]]].
  - destruct cmd as [c| | | |p b|entries]; handler; reflexivity.
  - destruct cmd as [c| | | |p b|entries]; handler;
      rewrite ?last_saved_password_snoc; reflexivity.
  - handler; reflexivity.
  - handler; rewrite ?last_saved_snoc; reflexivity.
  - handler; rewrite ?log_lines_snoc, ?app_nil_r; reflexivity.
Qed.

(** Counters never go below zero: if every counter and the total are
    non-negative, they are after any command. *)
Theorem counts_stay_nonneg (cmd : command) (s : VotingSystem) :
  counts_nonneg s -> counts_nonneg (run sha256_hexdigest cmd s).
Proof.
  unfold counts_nonneg. intros [Hv Ht].
  destruct cmd as [c| | | |p b|entries]; handler;
    try (split; assumption);
    try (split; [apply zeroed_nonneg | lia]).
  split; [|lia].
  apply setitem_nonneg; [|exact Hv].
  pose proof (get_nonneg c (votes s) Hv). lia.
Qed.

End Commands.

(** ** The master toggle *)

(** The toggle flips the flag whatever it is; it asks the audit log for
    exactly one line, the override line of the new state, and calls
    [save_data] with the flipped ballot.  It leaves the ballot that
    [close_voting] or [open_voting] would have left, touches neither the
    counters, the roster, the selection nor the credential, and two toggles
    in a row give back the ballot they started from. *)
Theorem toggle_master_voting_flips (s : VotingSystem) :
  voting_open (toggle_master_voting s) = negb (voting_open s)
  /\ ballot_of (toggle_master_voting s)
     = ballot_of (if voting_open s then close_voting s else open_voting s)
  /\ ballot_of (toggle_master_voting (toggle_master_voting s)) = ballot_of s
  /\ log_lines (events (toggle_master_voting s))
     = (log_lines (events s)
        ++ [if voting_open s then "Voting Closed Manually (Override)"
            else "Voting Opened Manually (Override)"])%list
  /\ last_saved (events (toggle_master_voting s))
     = Some (mkBallotData (candidates s) (votes s) (total_votes s)
               (negb (voting_open s)))
  /\ selected_candidate (toggle_master_voting s) = selected_candidate s
  /\ admin_password_hash (toggle_master_voting s) = admin_password_hash s.
Proof.
  unfold toggle_master_voting, open_voting, close_voting.
  destruct s as [o v c t h sel evs]. destruct o; simpl;
    rewrite ?last_saved_snoc, ?log_lines_snoc, ?app_nil_r; repeat split.
Qed.

(** ** Resetting the tally *)

Lemma in_enumerate_from {A : Type} (n i : nat) (a : A) (l : list A) :
  In (i, a) (enumerate_from n l) -> In a l.
Proof.
  revert n.
  induction l as [|x l IH]; simpl; intros n H; [contradiction|].
  destruct H as [H|H]; [left; congruence | right; eauto].
Qed.


Section Reset.

Variable sha256_hexdigest : string -> string.

(** A reset needs a non-empty password that verifies.  A cancelled prompt,
    an empty password (even if the stored hash were the digest of the empty
    string) and a wrong password all end in the "Authentication Failed" box
    with nothing else done; and with the right password, answering "no" to
    the confirmation leaves the application exactly as it was. *)
Theorem reset_votes_refused (p : string) (confirmed : bool)
    (s : VotingSystem) :
  let refused :=
    messagebox showerror "Authentication Failed"
      "Incorrect password. Reset operation cancelled." s in
  reset_votes sha256_hexdigest None confirmed s = refused
  /\ reset_votes sha256_hexdigest (Some "") confirmed s = refused
  /\ (verify_password sha256_hexdigest p s = false ->
      reset_votes sha256_hexdigest (Some p) confirmed s = refused)
  /\ (verify_password sha256_hexdigest p s = true -> p <> "" ->
      reset_votes sha256_hexdigest (Some p) false s = s).
Proof.
  unfold reset_votes. simpl. repeat split.
  - intros ->. rewrite andb_false_r. reflexivity.
  - intros -> Hp. destruct p; [contradiction | reflexivity].
Qed.

(** A confirmed reset with the right password zeroes every counter and the
    total, gives every candidate an entry and no one else, keeps the roster
    and the open flag, and saves the result; the results table then shows
    0 votes and "0.0%" in every row. *)
Theorem reset_votes_done (p : string) (s : VotingSystem) :
  verify_password sha256_hexdigest p s = true -> p <> "" ->
  let s' := reset_votes sha256_hexdigest (Some p) true s in
  candidates s' = candidates s
  /\ voting_open s' = voting_open s
  /\ total_votes s' = 0
  /\ (forall k, get k 0 (votes s') = 0)
  /\ roster_consistent s'
  /\ persisted s'
  /\ Forall (fun r => r_votes r = 0 /\ r_percent_text r = "0.0%")
       (display_results s')
  /\ ballot_of (reset_votes sha256_hexdigest (Some p) true s') = ballot_of s'.
Proof.
  intros Hv Hp s'. subst s'.
  assert (E : forall st, verify_password sha256_hexdigest p st = true ->
            reset_votes sha256_hexdigest (Some p) true st
            = messagebox showinfo "Reset Complete"
                "All voting data has been successfully cleared."
                (save_data (reset_votes_logic st))).
  { intros st H. unfold reset_votes. rewrite H.
    destruct p; [contradiction | reflexivity]. }
  rewrite E by exact Hv.
  assert (Hz : Forall (fun v => v = 0) (values (zeroed (candidates s))))
    by (apply values_fold_setitem; constructor).
  assert (Hget : forall k, get k 0 (zeroed (candidates s)) = 0).
  { intros k. revert Hz. unfold values.
    induction (zeroed (candidates s)) as [|[a w] d IH]; simpl; intros H;
      [reflexivity|].
    inversion H; subst. destruct (String.eqb a k); auto. }
  rewrite reset_votes_logic_eq. simpl.
  split; [reflexivity|]. split; [reflexivity|]. split; [reflexivity|].
  split; [exact Hget|]. split.
  { intros c. simpl. unfold zeroed. rewrite keys_fold_setitem. simpl. tauto. }
  split.
  { unfold persisted. simpl. rewrite !last_saved_snoc. reflexivity. }
  split.
  { unfold display_results. simpl.
    apply Forall_forall. intros r Hr. apply in_map_iff in Hr.
    destruct Hr as ([i [c v]] & <- & Hin). simpl.
    assert (Hv0 : v = 0).
    { assert (Hin' : In (c, v)
                       (sorted_by_count_desc (zeroed (candidates s)))).
      { eapply in_enumerate_from. exact Hin. }
      apply (Permutation_in _ (sorted_by_count_desc_perm _)) in Hin'.
      rewrite Forall_forall in Hz. apply Hz.
      unfold values. apply in_map_iff. exists (c, v). auto. }
    subst v. split; reflexivity. }
  rewrite E.
  - rewrite reset_votes_logic_eq. reflexivity.
  - unfold verify_password in *. exact Hv.
Qed.

End Reset.

(** ** Stripping *)

Lemma rstrip_nonspace (c : ascii) (s : string) :
  PyStr.isspace c = false ->
  PyStr.rstrip (String c s) = String c (PyStr.rstrip s).
Proof.
  intros H. simpl. rewrite H. now destruct (PyStr.rstrip s).
Qed.

Lemma rstrip_idem (s : string) :
  PyStr.rstrip (PyStr.rstrip s) = PyStr.rstrip s.
Proof.
  induction s as [|c s IH]; [reflexivity|].
  simpl. destruct (PyStr.rstrip s) as [|a r] eqn:E.
  - destruct (PyStr.isspace c) eqn:Hc; [reflexivity|].
    simpl. now rewrite Hc.
  - change (PyStr.rstrip (String c (String a r)))
      with (match PyStr.rstrip (String a r) with
            | EmptyString =>
                if PyStr.isspace c then EmptyString
                else String c EmptyString
            | r' => String c r'
            end).
    now rewrite IH.
Qed.

Lemma lstrip_head (s : string) :
  PyStr.lstrip s = ""
  \/ exists c t, PyStr.lstrip s = String c t /\ PyStr.isspace c = false.
Proof.
  induction s as [|c s IH]; [now left|].
  simpl. destruct (PyStr.isspace c) eqn:E; [exact IH|].
  right. eauto.
Qed.

Lemma strip_idem (s : string) : PyStr.strip (PyStr.strip s) = PyStr.strip s.
Proof.
  unfold PyStr.strip.
  destruct (lstrip_head s) as [->|(c & t & -> & Hc)]; [reflexivity|].
  rewrite rstrip_nonspace by exact Hc.
  simpl PyStr.lstrip. rewrite Hc.
  rewrite <- rstrip_nonspace by exact Hc. apply rstrip_idem.
Qed.

Lemma new_candidates_are_clean (entries : list string) :
  Forall clean_entry (new_candidates entries).
Proof.
  unfold new_candidates. apply Forall_forall. intros c Hc.
  apply filter_In in Hc. destruct Hc as [Hin Ht].
  apply in_map_iff in Hin. destruct Hin as (e & <- & _).
  split; [apply strip_idem|]. intros E. rewrite E in Ht. discriminate.
Qed.

(** ** The roster *)

Lemma default_candidates_valid : roster_valid init.
Proof.
  unfold roster_valid. simpl. split; [lia|]. split.
  - repeat (constructor;
            [simpl; intros H;
             repeat (destruct H as [H|H]; [discriminate|]); exact H|]).
    constructor.
  - repeat (constructor; [split; [reflexivity | discriminate]|]).
    constructor.
Qed.

Section Roster.

Variable sha256_hexdigest : string -> string.

Lemma run_candidates (cmd : command) (s : VotingSystem) :
  candidates (run sha256_hexdigest cmd s) = candidates s
  \/ (exists entries,
        cmd = SetCandidates entries
        /\ candidates (run sha256_hexdigest cmd s) = new_candidates entries
        /\ (length (new_candidates entries) <= 32)%nat
        /\ NoDup (new_candidates entries)).
Proof.
  destruct cmd as [c| | | |p b|entries];
    try (left; handler; reflexivity).
  simpl. unfold save_candidates.
  destruct (Nat.ltb_spec 32 (length (new_candidates entries)));
    [left; reflexivity|].
  destruct (_ =? _)%nat eqn:E; cbn [negb]; [|left; reflexivity].
  right. exists entries. rewrite reset_votes_logic_eq. simpl.
  repeat split; auto. now apply len_set_nodup.
Qed.

(** The roster the application starts with is valid: at most 32 names, no
    name twice, every name non-empty and without surrounding white space.
    No command makes a valid roster invalid, and whenever a command changes
    the roster the new one is valid, whatever the old one was. *)
Theorem roster_stays_valid (cmd : command) (s : VotingSystem) :
  roster_valid init
  /\ (roster_valid s -> roster_valid (run sha256_hexdigest cmd s))
  /\ (candidates (run sha256_hexdigest cmd s) <> candidates s ->
      roster_valid (run sha256_hexdigest cmd s)).
Proof.
  split; [exact default_candidates_valid|].
  unfold roster_valid.
  destruct (run_candidates cmd s) as [->|(entries & _ & -> & Hl & Hd)].
  - split; [auto | intros H; contradiction].
  - pose proof (new_candidates_are_clean entries). split; auto.
Qed.

End Roster.

(** ** The dialog *)

Lemma length_type_in (i : nat) (text : string) (entries : list string) :
  length (type_in i text entries) = length entries.
Proof.
  revert i.
  induction entries as [|e l IH]; intros i; destruct i; simpl; auto.
Qed.

Lemma length_manage_entries (actions : list field_action)
    (entries : list string) :
  (length entries <= 32)%nat ->
  (length (fold_left field_step actions entries) <= 32)%nat.
Proof.
  revert entries.
  induction actions as [|a actions IH]; intros entries H; simpl; [exact H|].
  apply IH. destruct a as [|i text]; simpl.
  - unfold add_field.
    destruct (Nat.ltb_spec (length entries) 32); [|exact H].
    rewrite length_app. simpl. lia.
  - now rewrite length_type_in.
Qed.

Lemma length_new_candidates (entries : list string) :
  (length (new_candidates entries) <= length entries)%nat.
Proof.
  unfold new_candidates.
  etransitivity; [apply filter_length_le|]. now rewrite length_map.
Qed.

(** The dialog never holds more than 32 fields when the roster it opens on
    has at most 32 names, whatever is typed and however often "Add Field"
    is pressed; "Save Changes" then cannot answer "Limit Exceeded": it
    either reports duplicate names, changing nothing, or replaces the
    roster. *)
Theorem manage_candidates_within_limit (actions : list field_action)
    (s : VotingSystem) :
  (length (candidates s) <= 32)%nat ->
  (length (manage_entries actions s) <= 32)%nat
  /\ (manage_candidates actions s
      = messagebox showerror "Duplicate Names"
          "Candidate names must be unique." s
      \/ manage_candidates actions s
         = messagebox showinfo "Success"
             "Candidate list updated. All votes have been reset."
             (save_data
                (reset_votes_logic
                   (set_candidates
                      (new_candidates (manage_entries actions s)) s)))).
Proof.
  intros H.
  pose proof (length_manage_entries actions (candidates s) H) as Hl.
  split; [exact Hl|].
  unfold manage_candidates, save_candidates.
  pose proof (length_new_candidates (manage_entries actions s)) as Hn.
  destruct (Nat.ltb_spec 32
              (length (new_candidates (manage_entries actions s))));
    [unfold manage_entries in *; lia|].
  destruct (_ =? _)%nat; simpl; [right | left]; reflexivity.
Qed.

Lemma manage_candidates_within_limit_witness :
  (length (candidates abc) <= 32)%nat
  /\ (length (manage_entries (repeat AddField 40) abc) <= 32)%nat.
Proof.
  assert (H : (length (candidates abc) <= 32)%nat) by (simpl; lia).
  split; [exact H|].
  exact (proj1 (manage_candidates_within_limit (repeat AddField 40) abc H)).
Defined.

(** Pressing "Save Changes" on the dialog as it opened, with no field
    touched, is accepted for a valid roster and still wipes the tally: the
    roster is the same and every counter and the total are zero. *)
Theorem manage_candidates_unchanged_wipes (s : VotingSystem) :
  roster_valid s ->
  candidates (manage_candidates [] s) = candidates s
  /\ votes (manage_candidates [] s) = map (fun c => (c, 0)) (candidates s)
  /\ total_votes (manage_candidates [] s) = 0
  /\ last (events (manage_candidates [] s)) (LogEvent "")
     = MessageBox showinfo "Success"
         "Candidate list updated. All votes have been reset.".
Proof.
  intros (Hl & Hd & Hc).
  unfold manage_candidates, manage_entries. simpl.
  pose proof (new_candidates_clean (candidates s) Hc) as E.
  rewrite save_candidates_accepted by (rewrite E; assumption).
  rewrite reset_votes_logic_eq, E. simpl.
  rewrite zeroed_nodup by exact Hd.
  repeat split. apply last_last.
Qed.

(** ** Loading and restarting *)

Lemma get_app_zero (k c : string) (d : dict) :
  get k 0 (d ++ [(c, 0)])%list = get k 0 d.
Proof.
  induction d as [|[a w] d IH]; simpl.
  - now destruct (String.eqb c k).
  - now destruct (String.eqb a k).
Qed.

Lemma sum_values_app_zero (c : string) (d : dict) :
  sum_values (d ++ [(c, 0)])%list = sum_values d.
Proof.
  unfold sum_values, values.
  induction d as [|[a w] d IH]; simpl; lia.
Qed.

Lemma backfill_spec (l : list string) (d : dict) :
  let d' := fold_left (fun d c => setdefault c 0 d) l d in
  (forall k, get k 0 d' = get k 0 d)
  /\ sum_values d' = sum_values d
  /\ (forall c, In c (keys d') <-> In c (keys d) \/ In c l)
  /\ ((forall c, In c l -> In c (keys d)) -> d' = d).
Proof.
  revert d.
  induction l as [|a l IH]; intros d; simpl.
  - repeat split; auto. tauto.
  - destruct (IH (setdefault a 0 d)) as (Hg & Hs & Hk & He).
    assert (G : forall k, get k 0 (setdefault a 0 d) = get k 0 d).
    { intros k. unfold setdefault.
      destruct (mem a d); [reflexivity | apply get_app_zero]. }
    assert (S : sum_values (setdefault a 0 d) = sum_values d).
    { unfold setdefault.
      destruct (mem a d); [reflexivity | apply sum_values_app_zero]. }
    split; [intros k; now rewrite Hg, G|].
    split; [now rewrite Hs, S|].
    split.
    + intros c. rewrite Hk, keys_setdefault. intuition.
    + intros H.
      assert (E : setdefault a 0 d = d).
      { unfold setdefault.
        destruct (mem a d) eqn:M; [reflexivity|].
        assert (In a (keys d)) by auto.
        apply mem_keys in H0. congruence. }
      rewrite He; rewrite E; auto.
Qed.

Lemma backfill_added (l : list string) (d : dict) :
  exists added,
    fold_left (fun d c => setdefault c 0 d) l d
    = (d ++ map (fun c => (c, 0)) added)%list
    /\ NoDup added
    /\ (forall c, In c added <-> In c l /\ ~ In c (keys d)).
Proof.
  revert d.
  induction l as [|a l IH]; intros d; simpl.
  - exists []. rewrite app_nil_r. split; [reflexivity|].
    split; [constructor|]. simpl. tauto.
  - unfold setdefault at 2. destruct (mem a d) eqn:M.
    + apply mem_keys in M.
      destruct (IH d) as (added & E & Hn & Hi).
      exists added. split; [exact E|]. split; [exact Hn|].
      intros c. rewrite Hi.
      split; [tauto|]. intros [[->|H] Hc]; [contradiction | tauto].
    + assert (Ha : ~ In a (keys d)).
      { intros H. apply mem_keys in H. congruence. }
      destruct (IH (d ++ [(a, 0)])%list) as (added & E & Hn & Hi).
      assert (Hk : forall c, In c (keys (d ++ [(a, 0)])%list)
                             <-> In c (keys d) \/ c = a).
      { intros c. unfold keys. rewrite map_app, in_app_iff. simpl.
        intuition. }
      exists (a :: added). split.
      * rewrite E, <- app_assoc. reflexivity.
      * split.
        -- constructor; [|exact Hn].
           intros H. apply Hi in H. destruct H as [_ H].
           apply H, Hk. now right.
        -- intros c. simpl. rewrite Hi, Hk.
           destruct (string_dec a c) as [->|Hne]; [tauto|].
           intuition congruence.
Qed.

(** A ballot file holding a well-typed JSON object is taken at its word.
    The roster is the one in the file (the current one if the file has
    none).  The counters are the entries of the file, as they stand and in
    their order, followed by one zero entry for each candidate the file
    has no entry for, none of them twice; so no count of the file is
    altered and every candidate has an entry.  The total and the open flag
    are the ones the file states (0 and closed if it states none), so that
    total and counters agree exactly when they did in the file.  Nothing
    is shown, saved or logged, and selection and credential stay. *)
Theorem load_data_json (data : ballot_json) (s : VotingSystem) :
  let s' := load_data (FileJson data) s in
  let file_votes := dict_get_default (j_votes data) [] in
  candidates s' = dict_get_default (j_candidates data) (candidates s)
  /\ total_votes s' = dict_get_default (j_total_votes data) 0
  /\ voting_open s' = dict_get_default (j_voting_open data) false
  /\ (exists added,
        votes s' = (file_votes ++ map (fun c => (c, 0)) added)%list
        /\ NoDup added
        /\ forall c, In c added
                     <-> In c (candidates s') /\ ~ In c (keys file_votes))
  /\ (forall c, In c (keys (votes s'))
                <-> In c (keys file_votes) \/ In c (candidates s'))
  /\ (forall k, get k 0 (votes s') = get k 0 file_votes)
  /\ (totals_consistent s'
      <-> dict_get_default (j_total_votes data) 0 = sum_values file_votes)
  /\ events s' = events s
  /\ selected_candidate s' = selected_candidate s
  /\ admin_password_hash s' = admin_password_hash s.
Proof.
  intros s' file_votes. subst s' file_votes.
  unfold totals_consistent. simpl.
  rewrite (fold_votes (fun c d => setdefault c 0 d)). simpl.
  destruct (backfill_spec
              (dict_get_default (j_candidates data) (candidates s))
              (dict_get_default (j_votes data) [])) as (Hg & Hs & Hk & _).
  destruct (backfill_added
              (dict_get_default (j_candidates data) (candidates s))
              (dict_get_default (j_votes data) [])) as (added & E & Hn & Hi).
  simpl in *. rewrite Hs.
  split; [reflexivity|]. split; [reflexivity|]. split; [reflexivity|].
  split; [exists added; auto|].
  repeat split; auto; apply Hk.
Qed.

(** Closing and starting again gives the ballot back: when the file holds
    what is in memory and every candidate has a counter, loading the file
    the trace has left yields the same roster, counters in the same order,
    total and open flag, whatever the freshly built object held. *)
Theorem restart_restores_ballot (s s0 : VotingSystem) :
  persisted s ->
  (forall c, In c (candidates s) -> In c (keys (votes s))) ->
  ballot_of (load_data (data_file_of (events s)) s0) = ballot_of s.
Proof.
  unfold persisted, data_file_of. intros -> H.
  unfold ballot_of. simpl.
  rewrite (fold_votes (fun c d => setdefault c 0 d)). simpl.
  destruct (backfill_spec (candidates s) (votes s)) as (_ & _ & _ & He).
  simpl in He. now rewrite He.
Qed.

Lemma restart_restores_ballot_witness :
  persisted (castVote "A" (open_voting abc))
  /\ ballot_of
       (load_data (data_file_of (events (castVote "A" (open_voting abc))))
          init)
     = mkBallotData ["A"; "B"; "C"] [("A", 1); ("B", 0); ("C", 0)] 1 true.
Proof.
  assert (H : persisted (castVote "A" (open_voting abc))) by reflexivity.
  split; [exact H|].
  rewrite (restart_restores_ballot (castVote "A" (open_voting abc)) init H).
  - reflexivity.
  - simpl. tauto.
Defined.

(** A ballot file on which [open] or [json.load] raises [IOError] or
    [json.JSONDecodeError], the exceptions [load_data] catches, costs the
    tally and nothing else: the warning is shown, the roster and the open
    flag stay, every candidate gets a zero counter and the total is
    zero. *)
Theorem load_data_unreadable (e : string) (s : VotingSystem) :
  let s' := load_data (FileUnreadable e) s in
  candidates s' = candidates s
  /\ voting_open s' = voting_open s
  /\ total_votes s' = 0
  /\ (forall k, get k 0 (votes s') = 0)
  /\ roster_consistent s'
  /\ events s'
     = (events s
        ++ [MessageBox showwarning "Data Load Error"
              ("Could not load data: " ++ e
               ++ ". Starting with fresh data.")])%list.
Proof.
  cbv zeta. unfold load_data. rewrite reset_votes_logic_eq.
  unfold messagebox. simpl.
  assert (Hz : Forall (fun v => v = 0) (values (zeroed (candidates s))))
    by (apply values_fold_setitem; constructor).
  split; [reflexivity|]. split; [reflexivity|]. split; [reflexivity|].
  split; [|split; [|reflexivity]].
  - intros k. revert Hz. unfold values.
    induction (zeroed (candidates s)) as [|[a w] d IH]; simpl; intros H;
      [reflexivity|].
    inversion H; subst. destruct (String.eqb a k); auto.
  - intros c. simpl. unfold zeroed. rewrite keys_fold_setitem. simpl. tauto.
Qed.

(** ** The credential at start-up and at the log-in dialogs *)

Section AccessProperties.

Variable sha256_hexdigest : string -> string.

(** The application never runs without a credential.  A password file
    holding a non-empty hash is taken as it is: nobody is asked and nothing
    is shown or saved.  With no file, a file that cannot be read or parsed,
    or one whose hash is missing, null or empty, the administrator is
    asked: a non-empty answer becomes the credential, [save_password] is
    called with its hash at once and "Setup Complete" is shown, while an
    empty answer or a cancelled prompt shows "Setup Required", saves
    nothing and ends the process.  A file that makes [json.load] or
    [data.get] raise an exception other than the two caught ends the
    process before anybody is asked. *)
Theorem setup_password_outcome (f : password_file) (reply : option string)
    (s : VotingSystem) :
  (forall s', setup_password sha256_hexdigest f reply s = Running s' ->
              admin_password_hash s' <> None)
  /\ (forall h, h <> "" ->
        setup_password sha256_hexdigest (PasswordJson (Some h)) reply s
        = Running (set_admin_password_hash (Some h) s))
  /\ (f = PasswordAbsent \/ f = PasswordUnreadable
      \/ f = PasswordJson None \/ f = PasswordJson (Some "") ->
      (reply = None \/ reply = Some "" ->
       exists s',
         setup_password sha256_hexdigest f reply s = Exited s'
         /\ events s'
            = (events s
               ++ [MessageBox showerror "Setup Required"
                     "An administrator password is required. The application will now exit."])%list)
      /\ (forall p, reply = Some p -> p <> "" ->
          exists s',
            setup_password sha256_hexdigest f reply s = Running s'
            /\ admin_password_hash s' = Some (sha256_hexdigest p)
            /\ verify_password sha256_hexdigest p s' = true
            /\ ballot_of s' = ballot_of s
            /\ last_saved_password (events s')
               = Some (Some (sha256_hexdigest p))
            /\ last (events s') (LogEvent "")
               = MessageBox showinfo "Setup Complete"
                   "Administrator password has been set successfully."))
  /\ setup_password sha256_hexdigest PasswordMalformed reply s = Crashed s.
Proof.
  split; [|split; [|split]].
  - intros s' H.
    destruct f as [| |[[|a h]|]|]; simpl in H;
      try discriminate;
      try (injection H as EE; subst; simpl; discriminate);
      unfold create_initial_password in H;
      destruct reply as [[|b p]|]; try discriminate;
      injection H as EE; subst; simpl; discriminate.
  - intros h Hh. destruct h; [contradiction | reflexivity].
  - intros Hf. split.
    + intros Hr.
      destruct Hf as [ -> | [ -> | [ -> | -> ] ] ];
        destruct Hr as [ -> | -> ];
        simpl; (eexists; split; [reflexivity|]); reflexivity.
    + intros p -> Hp. destruct p as [|a p]; [contradiction|].
      destruct Hf as [ -> | [ -> | [ -> | -> ] ] ]; simpl;
        (eexists; split; [reflexivity|]);
        unfold verify_password, hash_password; simpl;
        rewrite String.eqb_refl, !last_saved_password_snoc;
        repeat split; apply last_last.
  - reflexivity.
Qed.

(** Both log-in dialogs let through exactly a non-empty password whose
    digest is the stored hash: the empty password is refused even if the
    stored hash were its digest.  On a cancelled prompt both do nothing at
    all.  [admin_login] shows nothing when it grants and "Login Failed"
    when it refuses; [authenticate_secure_admin] shows "Access Granted"
    when it grants and "Authentication Failed" when it refuses; in every
    case that box is all that happens, so that neither dialog ever changes
    the credential or the ballot. *)
Theorem login_grants (reply : option string) (s : VotingSystem) :
  let granted :=
    exists p, reply = Some p /\ p <> ""
              /\ admin_password_hash s = Some (sha256_hexdigest p) in
  (fst (admin_login sha256_hexdigest reply s) = true <-> granted)
  /\ (fst (authenticate_secure_admin sha256_hexdigest reply s) = true
      <-> granted)
  /\ (reply = None ->
      admin_login sha256_hexdigest reply s = (false, s)
      /\ authenticate_secure_admin sha256_hexdigest reply s = (false, s))
  /\ (fst (admin_login sha256_hexdigest reply s) = true ->
      snd (admin_login sha256_hexdigest reply s) = s)
  /\ (fst (authenticate_secure_admin sha256_hexdigest reply s) = true ->
      snd (authenticate_secure_admin sha256_hexdigest reply s)
      = messagebox showinfo "Access Granted"
          "Secure functions are now available." s)
  /\ (reply <> None ->
      fst (admin_login sha256_hexdigest reply s) = false ->
      snd (admin_login sha256_hexdigest reply s)
      = messagebox showerror "Login Failed"
          "The password you entered is incorrect." s)
  /\ (reply <> None ->
      fst (authenticate_secure_admin sha256_hexdigest reply s) = false ->
      snd (authenticate_secure_admin sha256_hexdigest reply s)
      = messagebox showerror "Authentication Failed"
          "Incorrect password." s)
  /\ ballot_of (snd (admin_login sha256_hexdigest reply s)) = ballot_of s
  /\ admin_password_hash (snd (admin_login sha256_hexdigest reply s))
     = admin_password_hash s
  /\ ballot_of (snd (authenticate_secure_admin sha256_hexdigest reply s))
     = ballot_of s
  /\ admin_password_hash
       (snd (authenticate_secure_admin sha256_hexdigest reply s))
     = admin_password_hash s.
Proof.
  intros granted.
  assert (G : granted
              <-> exists p, reply = Some p
                    /\ PyStr.truthy p
                       && verify_password sha256_hexdigest p s = true).
  { subst granted. split.
    - intros (p & -> & Hp & Hh). exists p. split; [reflexivity|].
      apply andb_true_iff. split.
      + destruct p; [contradiction | reflexivity].
      + now apply verify_password_iff.
    - intros (p & -> & H). apply andb_true_iff in H. destruct H as [Ht Hv].
      exists p. split; [reflexivity|]. split.
      + intros ->. discriminate.
      + now apply verify_password_iff. }
  unfold admin_login, authenticate_secure_admin.
  destruct reply as [p|]; simpl.
  - destruct (PyStr.truthy p && verify_password sha256_hexdigest p s)
      eqn:E; simpl.
    + assert (Hg : granted) by (apply G; eauto).
      repeat split; auto; try discriminate.
    + assert (Hn : ~ granted).
      { intros H. apply G in H. destruct H as (q & Hq & H).
        injection Hq as EE; subst. congruence. }
      repeat split; auto; try discriminate; try contradiction.
  - assert (Hn : ~ granted).
    { intros H. apply G in H. destruct H as (q & Hq & _). discriminate. }
    repeat split; auto; try discriminate; try contradiction.
Qed.

(** A change of password that goes through: the current password verifies
    and the new one is non-empty and typed twice alike.  From then on a
    password verifies exactly when its digest is that of the new one;
    [save_password] has been called with the new hash, and the last thing
    shown is the "Success" box.  An empty new password is refused even when
    the confirmation matches it. *)
Theorem do_change_accepted (current new : string) (s : VotingSystem) :
  verify_password sha256_hexdigest current s = true ->
  (new <> "" ->
   let s' := do_change sha256_hexdigest current new new s in
   admin_password_hash s' = Some (sha256_hexdigest new)
   /\ (forall p, verify_password sha256_hexdigest p s' = true
                 <-> sha256_hexdigest p = sha256_hexdigest new)
   /\ last_saved_password (events s') = Some (admin_password_hash s')
   /\ last (events s') (LogEvent "")
      = MessageBox showinfo "Success" "Password changed successfully.")
  /\ do_change sha256_hexdigest current "" "" s
     = messagebox showerror "Error"
         "New passwords do not match or are empty." s.
Proof.
  intros Hv. split.
  - intros Hn s'. subst s'. unfold do_change. rewrite Hv.
    rewrite String.eqb_refl.
    destruct new as [|a n]; [contradiction|]. simpl.
    rewrite !last_saved_password_snoc.
    split; [reflexivity|]. split; [|split; [reflexivity | apply last_last]].
    intros p. rewrite verify_password_iff. simpl.
    unfold hash_password. split; congruence.
  - unfold do_change. rewrite Hv. reflexivity.
Qed.

(** The credential survives a restart: after a change of password that went
    through, [setup_password] on the file the trace has left asks nobody
    and installs the hash of the new password, so that the new password
    verifies. *)
Theorem password_survives_restart (current new : string)
    (reply : option string) (s s0 : VotingSystem) :
  verify_password sha256_hexdigest current s = true ->
  new <> "" -> sha256_hexdigest new <> "" ->
  let s' := do_change sha256_hexdigest current new new s in
  setup_password sha256_hexdigest (password_file_of (events s')) reply s0
  = Running (set_admin_password_hash (admin_password_hash s') s0)
  /\ forall s1,
       setup_password sha256_hexdigest (password_file_of (events s'))
         reply s0 = Running s1 ->
       verify_password sha256_hexdigest new s1 = true.
Proof.
  intros Hv Hn Hd s'. subst s'.
  assert (E : password_file_of
                (events (do_change sha256_hexdigest current new new s))
              = PasswordJson (Some (sha256_hexdigest new))
              /\ admin_password_hash
                   (do_change sha256_hexdigest current new new s)
                 = Some (sha256_hexdigest new)).
  { unfold password_file_of, do_change. rewrite Hv, String.eqb_refl.
    destruct new as [|a n]; [contradiction|]. simpl.
    rewrite !last_saved_password_snoc. split; reflexivity. }
  destruct E as [-> ->].
  assert (R : setup_password sha256_hexdigest
                (PasswordJson (Some (sha256_hexdigest new))) reply s0
              = Running (set_admin_password_hash
                           (Some (sha256_hexdigest new)) s0)).
  { simpl. destruct (sha256_hexdigest new); [contradiction | reflexivity]. }
  split; [exact R|].
  intros s1 H. rewrite R in H. injection H as EE; subst.
  apply verify_password_iff. reflexivity.
Qed.

End AccessProperties.

(** ** More on the results table *)

Lemma filter_head_split {A : Type} (f : A -> bool) (l : list A) (x : A)
    (t : list A) :
  filter f l = x :: t ->
  exists before after,
    l = (before ++ x :: after)%list
    /\ Forall (fun y => f y = false) before.
Proof.
  induction l as [|a l IH]; simpl; intros H; [discriminate|].
  destruct (f a) eqn:E.
  - injection H as Ha Ht. subst. exists [], l. split; [reflexivity|].
    constructor.
  - destruct (IH H) as (b & af & -> & Hb).
    exists (a :: b), af. split; [reflexivity|]. now constructor.
Qed.

(** The first row is the winner: no entry of the dictionary has more votes
    than it, and it is the earliest entry with that many, every entry
    before it in the dictionary having strictly fewer. *)
Theorem display_results_winner (s : VotingSystem) (r : result_row)
    (rest : list result_row) :
  display_results s = r :: rest ->
  (forall item, In item (votes s) -> snd item <= r_votes r)
  /\ exists before after,
       votes s = (before ++ item_of r :: after)%list
       /\ Forall (fun item => snd item < r_votes r) before.
Proof.
  intros H.
  pose proof (display_results_items s) as Hi.
  rewrite H in Hi. simpl in Hi.
  pose proof (sorted_by_count_desc_sorted (votes s)) as Hs.
  pose proof (sorted_by_count_desc_perm (votes s)) as Hp.
  rewrite <- Hi in Hs, Hp.
  assert (Hmax : forall item, In item (votes s) -> snd item <= r_votes r).
  { intros item Hin.
    apply (Permutation_in _ (Permutation_sym Hp)) in Hin.
    destruct Hin as [<-|Hin]; [simpl; lia|].
    inversion Hs as [|? ? _ Hall]; subst.
    rewrite Forall_forall in Hall. apply (Hall item Hin). }
  split; [exact Hmax|].
  pose proof (sorted_by_count_desc_stable (r_votes r) (votes s)) as Hst.
  rewrite <- Hi in Hst. simpl in Hst.
  unfold has_count at 1 in Hst. simpl in Hst. rewrite Z.eqb_refl in Hst.
  symmetry in Hst.
  destruct (filter_head_split _ _ _ _ Hst) as (b & af & E & Hb).
  exists b, af. split; [exact E|].
  apply Forall_forall. intros item Hin.
  rewrite Forall_forall in Hb. specialize (Hb item Hin).
  unfold has_count in Hb. apply Z.eqb_neq in Hb.
  assert (snd item <= r_votes r).
  { apply Hmax. rewrite E. apply in_or_app. now left. }
  lia.
Qed.

Lemma display_results_winner_witness :
  map r_candidate (display_results (cast_all ["B"; "C"] (open_voting abc)))
  = ["B"; "C"; "A"]
  /\ exists before after,
       votes (cast_all ["B"; "C"] (open_voting abc))
       = (before ++ ("B", 1) :: after)%list
       /\ Forall (fun item => snd item < 1) before.
Proof.
  split; [vm_compute; reflexivity|].
  destruct (display_results (cast_all ["B"; "C"] (open_voting abc)))
    as [|r rest] eqn:H; [vm_compute in H; discriminate|].
  assert (Hr : item_of r = ("B", 1)).
  { assert (E : map item_of
                  (display_results (cast_all ["B"; "C"] (open_voting abc)))
                = [("B", 1); ("C", 1); ("A", 0)])
      by (vm_compute; reflexivity).
    rewrite H in E. simpl in E. congruence. }
  destruct (display_results_winner _ _ _ H) as (_ & b & af & E & Hb).
  rewrite Hr in E.
  assert (Hv : r_votes r = 1) by (unfold item_of in Hr; congruence).
  rewrite Hv in Hb.
  exists b, af. split; [exact E | exact Hb].
Defined.

Lemma ranks_of_rows (total : Z) (l : dict) (i : nat) :
  map r_rank
    (map (fun ia => result_of total (fst ia) (snd ia)) (enumerate_from i l))
  = map (fun n => PyStr.of_nat (S n) ++ ".") (seq i (length l)).
Proof.
  revert i.
  induction l as [|[c v] l IH]; intros i; simpl; [reflexivity|].
  now rewrite IH.
Qed.

(** The table has one row per entry of the dictionary, numbered "1.", "2.",
    and so on from the top; and while the total is zero (or below) every
    row shows "0.0%", whatever its count. *)
Theorem display_results_shape (s : VotingSystem) :
  length (display_results s) = length (votes s)
  /\ map r_rank (display_results s)
     = map (fun n => PyStr.of_nat (S n) ++ ".") (seq 0 (length (votes s)))
  /\ (total_votes s <= 0 ->
      Forall (fun r => r_percent_text r = "0.0%") (display_results s)).
Proof.
  assert (Hl : length (sorted_by_count_desc (votes s)) = length (votes s))
    by (apply Permutation_length, sorted_by_count_desc_perm).
  split; [|split].
  - rewrite <- (length_map item_of), display_results_items. exact Hl.
  - unfold display_results. rewrite ranks_of_rows, Hl. reflexivity.
  - intros Ht. unfold display_results.
    eapply Forall_impl; [|apply rows_percentage].
    intros r [Hp ->]. rewrite Hp. unfold percentage_of.
    destruct (Z.ltb_spec 0 (total_votes s)); [lia | reflexivity].
Qed.

Lemma display_results_shape_witness :
  total_votes abc <= 0
  /\ Forall (fun r => r_percent_text r = "0.0%") (display_results abc).
Proof.
  assert (H : total_votes abc <= 0) by (simpl; lia).
  split; [exact H|].
  exact (proj2 (proj2 (display_results_shape abc)) H).
Defined.

(** ** Instances *)

Lemma ballot_saved_on_change_witness :
  ballot_of (run toy_digest (CastVote "A") (open_voting abc))
  <> ballot_of (open_voting abc)
  /\ persisted (run toy_digest (CastVote "A") (open_voting abc)).
Proof.
  assert (H : ballot_of (run toy_digest (CastVote "A") (open_voting abc))
              <> ballot_of (open_voting abc))
    by (vm_compute; discriminate).
  split; [exact H|].
  exact (proj1 (ballot_saved_on_change toy_digest (CastVote "A")
                  (open_voting abc)) H).
Defined.

Lemma counts_stay_nonneg_witness :
  counts_nonneg (open_voting abc)
  /\ counts_nonneg (run toy_digest (CastVote "C") (open_voting abc)).
Proof.
  assert (H : counts_nonneg (open_voting abc)).
  { split; [|simpl; lia]. simpl. repeat constructor; lia. }
  split; [exact H|].
  exact (counts_stay_nonneg toy_digest (CastVote "C") (open_voting abc) H).
Defined.

Lemma roster_stays_valid_witness :
  candidates (run toy_digest (SetCandidates ["X"; " Y "]) abc)
  <> candidates abc
  /\ roster_valid (run toy_digest (SetCandidates ["X"; " Y "]) abc).
Proof.
  assert (H : candidates (run toy_digest (SetCandidates ["X"; " Y "]) abc)
              <> candidates abc)
    by (vm_compute; discriminate).
  split; [exact H|].
  exact (proj2 (proj2 (roster_stays_valid toy_digest
                         (SetCandidates ["X"; " Y "]) abc)) H).
Defined.

Lemma reset_votes_refused_witness :
  verify_password toy_digest "guess" abc_admin = false
  /\ reset_votes toy_digest (Some "guess") true abc_admin
     = messagebox showerror "Authentication Failed"
         "Incorrect password. Reset operation cancelled." abc_admin
  /\ reset_votes toy_digest (Some "secret") false abc_admin = abc_admin.
Proof.
  split; [reflexivity|].
  destruct (reset_votes_refused toy_digest "guess" true abc_admin)
    as (_ & _ & H & _).
  destruct (reset_votes_refused toy_digest "secret" false abc_admin)
    as (_ & _ & _ & H').
  split; [exact (H eq_refl)|].
  apply H'; [reflexivity | discriminate].
Defined.

Lemma reset_votes_done_witness :
  verify_password toy_digest "secret" (castVote "A" (open_voting abc_admin))
  = true
  /\ total_votes (castVote "A" (open_voting abc_admin)) = 1
  /\ total_votes
       (reset_votes toy_digest (Some "secret") true
          (castVote "A" (open_voting abc_admin))) = 0.
Proof.
  split; [reflexivity|]. split; [reflexivity|].
  destruct (reset_votes_done toy_digest "secret"
              (castVote "A" (open_voting abc_admin)))
    as (_ & _ & H & _); [reflexivity | discriminate | exact H].
Defined.

Lemma manage_candidates_unchanged_wipes_witness :
  roster_valid (castVote "A" (open_voting abc))
  /\ total_votes (castVote "A" (open_voting abc)) = 1
  /\ total_votes (manage_candidates [] (castVote "A" (open_voting abc))) = 0.
Proof.
  assert (H : roster_valid (castVote "A" (open_voting abc))).
  { split; [simpl; lia|]. split.
    - repeat (constructor;
              [simpl; intros H;
               repeat (destruct H as [H|H]; [discriminate|]); exact H|]).
      constructor.
    - repeat (constructor; [split; [reflexivity | discriminate]|]).
      constructor. }
  split; [exact H|]. split; [reflexivity|].
  destruct (manage_candidates_unchanged_wipes _ H) as (_ & _ & Ht & _).
  exact Ht.
Defined.

Lemma load_data_json_witness :
  totals_consistent
    (load_data
       (FileJson (mkBallotJson (Some ["A"; "B"]) (Some [("A", 2)]) (Some 2)
                    None))
       init)
  /\ votes
       (load_data
          (FileJson (mkBallotJson (Some ["A"; "B"]) (Some [("A", 2)])
                       (Some 2) None))
          init)
     = [("A", 2); ("B", 0)].
Proof.
  split; [|reflexivity].
  destruct (load_data_json
              (mkBallotJson (Some ["A"; "B"]) (Some [("A", 2)]) (Some 2)
                 None) init) as (_ & _ & _ & _ & _ & _ & H & _).
  apply H. reflexivity.
Defined.

Lemma setup_password_outcome_witness :
  exists s',
    setup_password toy_digest PasswordAbsent (Some "secret") init
    = Running s'
    /\ admin_password_hash s' = Some "#secret".
Proof.
  destruct (setup_password_outcome toy_digest PasswordAbsent
              (Some "secret") init) as (_ & _ & H & _).
  destruct (H (or_introl eq_refl)) as (_ & H').
  destruct (H' "secret" eq_refl) as (s' & E & Hh & _); [discriminate|].
  exists s'. split; [exact E | exact Hh].
Defined.

Lemma login_grants_witness :
  fst (admin_login toy_digest (Some "secret") abc_admin) = true
  /\ snd (admin_login toy_digest (Some "secret") abc_admin) = abc_admin
  /\ snd (authenticate_secure_admin toy_digest (Some "guess") abc_admin)
     = messagebox showerror "Authentication Failed" "Incorrect password."
         abc_admin.
Proof.
  destruct (login_grants toy_digest (Some "secret") abc_admin)
    as (H1 & _ & _ & H2 & _).
  destruct (login_grants toy_digest (Some "guess") abc_admin)
    as (_ & _ & _ & _ & _ & _ & H3 & _).
  assert (H : fst (admin_login toy_digest (Some "secret") abc_admin) = true).
  { apply H1. exists "secret".
    split; [reflexivity|]. split; [discriminate | reflexivity]. }
  split; [exact H|]. split; [exact (H2 H)|].
  apply H3; [discriminate | reflexivity].
Defined.

Lemma do_change_accepted_witness :
  verify_password toy_digest "secret" abc_admin = true
  /\ admin_password_hash (do_change toy_digest "secret" "new" "new" abc_admin)
     = Some "#new".
Proof.
  split; [reflexivity|].
  destruct (do_change_accepted toy_digest "secret" "new" abc_admin eq_refl)
    as (H & _).
  destruct H as (Hh & _); [discriminate | exact Hh].
Defined.

Lemma password_survives_restart_witness :
  verify_password toy_digest "secret" abc_admin = true
  /\ setup_password toy_digest
       (password_file_of
          (events (do_change toy_digest "secret" "new" "new" abc_admin)))
       None init
     = Running (set_admin_password_hash (Some "#new") init).
Proof.
  split; [reflexivity|].
  destruct (password_survives_restart toy_digest "secret" "new" None
              abc_admin init) as (H & _);
    [reflexivity | discriminate | discriminate | exact H].
Defined.

(** ** A full restart *)

Lemma load_data_of_saved (d : ballot_data) (s0 : VotingSystem) :
  (forall c, In c (d_candidates d) -> In c (keys (d_votes d))) ->
  ballot_of (load_data (FileJson (json_of d)) s0) = d
  /\ admin_password_hash (load_data (FileJson (json_of d)) s0)
     = admin_password_hash s0
  /\ events (load_data (FileJson (json_of d)) s0) = events s0.
Proof.
  intros H. unfold ballot_of. simpl.
  rewrite (fold_votes (fun c d => setdefault c 0 d)). simpl.
  destruct (backfill_spec (d_candidates d) (d_votes d)) as (_ & _ & _ & He).
  simpl in He. rewrite He by exact H. now destruct d.
Qed.

(** Starting the application on the two files a session has left brings
    back the session's ballot and credential without asking or showing
    anything: provided the ballot in memory was the one saved, every
    candidate had a counter, and the stored hash was non-empty and the one
    last written. *)
Theorem start_restores_session (sha256_hexdigest : string -> string)
    (reply : option string) (s : VotingSystem) (h : string) :
  persisted s ->
  (forall c, In c (candidates s) -> In c (keys (votes s))) ->
  admin_password_hash s = Some h -> h <> "" ->
  last_saved_password (events s) = Some (Some h) ->
  exists s',
    start sha256_hexdigest (password_file_of (events s)) reply
      (data_file_of (events s)) = Running s'
    /\ ballot_of s' = ballot_of s
    /\ admin_password_hash s' = admin_password_hash s
    /\ events s' = [].
Proof.
  unfold persisted. intros Hp Hc Hh Hn Hs.
  unfold start, password_file_of, data_file_of. rewrite Hs, Hp.
  destruct h as [|a h]; [contradiction|]. simpl setup_password.
  destruct (load_data_of_saved (ballot_of s)
              (set_admin_password_hash (Some (String a h)) init) Hc)
    as (Hb & Hh' & He).
  eexists. split; [reflexivity|].
  split; [exact Hb|]. split; [now rewrite Hh', Hh | exact He].
Qed.

Lemma start_restores_session_witness :
  exists s',
    start toy_digest
      (password_file_of
         (events (castVote "A" (open_voting
                    (do_change toy_digest "secret" "new" "new" abc_admin)))))
      None
      (data_file_of
         (events (castVote "A" (open_voting
                    (do_change toy_digest "secret" "new" "new" abc_admin)))))
    = Running s'
    /\ ballot_of s'
       = mkBallotData ["A"; "B"; "C"] [("A", 1); ("B", 0); ("C", 0)] 1 true.
Proof.
  destruct (start_restores_session toy_digest None
              (castVote "A" (open_voting
                 (do_change toy_digest "secret" "new" "new" abc_admin)))
              "#new")
    as (s' & E & Hb & _).
  - reflexivity.
  - simpl. tauto.
  - reflexivity.
  - discriminate.
  - reflexivity.
  - exists s'. split; [exact E|]. rewrite Hb. reflexivity.
Defined.
